(** * aido-cron: the scheduling plugin of [lib/index.js] and the job
    model of [lib/database/job.js].

    The plugin keeps a process-wide object [jobs] from job id to a
    [CronJob] timer, persists jobs in a [job] table through an objection
    model, fires a dispatch callable when a timer elapses and writes the
    outcome back to the table.

    The embedding is a state-and-exception monad over a [World] holding
    the table, the timers living on the JavaScript heap, the [jobs]
    object and the list of queries sent to the store.  The packages the
    plugin calls (moment, cron, objection's validator, the database
    collation, the dispatch callables of aido) are parameters gathered
    in [Host] and [Utils].

    Left out: [console.log], a store that cannot be reached, and the
    methods of [slashFactory] and [getHelpers] that only fill in defaults
    before they call [scheduleTask] and [killTasks]. *)

From stdpp Require Import base option list strings gmap pretty.
From Stdlib Require Import ZArith String.

Set Warnings "-clear-no-such-hyp".

Local Open Scope Z_scope.
Local Open Scope string_scope.

(** ** Values *)

(** A job id is the integer primary key assigned by the store, or the
    string constant ['NO_PERSISTANCE'] of ephemeral jobs. *)
Inductive JobId :=
  | Num (n : Z)
  | Sentinel.

Definition NO_PERSISTANCE : JobId := Sentinel.

#[global] Instance JobId_eq_dec : EqDecision JobId.
Proof. solve_decision. Defined.

Definition JobId_enc (i : JobId) : option Z :=
  match i with Num n => Some n | Sentinel => None end.

Definition JobId_dec (o : option Z) : JobId :=
  match o with Some n => Num n | None => Sentinel end.

#[global] Instance JobId_countable : Countable JobId.
Proof.
  apply (inj_countable' JobId_enc JobId_dec).
  intros []; reflexivity.
Defined.

(** What a [throw] carries: an [Error] object (name and message) or a
    bare string. *)
Inductive Thrown :=
  | ErrorObj (name message : string)
  | ThrownStr (s : string).

(** [error.toString()]: [Error.prototype.toString] for objects, the
    string itself for a thrown string. *)
Definition toString (e : Thrown) : string :=
  match e with
  | ErrorObj name message =>
      if decide (name = "") then message
      else if decide (message = "") then name
      else name ++ ": " ++ message
  | ThrownStr s => s
  end.

Definition TypeError (message : string) : Thrown := ErrorObj "TypeError" message.
Definition ValidationError (message : string) : Thrown :=
  ErrorObj "ValidationError" message.
Definition CronError (message : string) : Thrown := ErrorObj "Error" message.

(** JavaScript truthiness of a possibly absent string. *)
Definition truthy (s : option string) : bool :=
  match s with
  | Some v => negb (String.eqb v "")
  | None => false
  end.

(** The payload delivered to an action: an arbitrary JSON object. *)
Definition Args : Type := list (string * string).

(** ** The job model ([lib/database/job.js]) *)

Module Job.
(** A model instance, a table row, or the plain object built by the
    no-persistence helper.  [None] is an absent (undefined/NULL) field. *)
Record t := mk {
  id : JobId;
  cron : option string;
  user : option string;
  slash : option string;
  text : option string;
  action : option string;
  args : option Args;
  channel : option string;
  conversationWith : option (list string);
  conversationAs : option string;
  done : option bool;
  error : option string;
}.

(** The object handed to [patch]: [{ done }] or [{ done, error }]. *)
Record patch := mkPatch {
  p_done : option bool;
  p_error : option string;
}.

Definition applyPatch (p : patch) (j : t) : t :=
  {| id := id j; cron := cron j; user := user j; slash := slash j;
     text := text j; action := action j; args := args j;
     channel := channel j; conversationWith := conversationWith j;
     conversationAs := conversationAs j;
     done := match p_done p with Some b => Some b | None => done j end;
     error := match p_error p with Some e => Some e | None => error j end |}.

Definition withId (i : JobId) (j : t) : t :=
  {| id := i; cron := cron j; user := user j; slash := slash j;
     text := text j; action := action j; args := args j;
     channel := channel j; conversationWith := conversationWith j;
     conversationAs := conversationAs j; done := done j; error := error j |}.

(** [minLength]/[maxLength] of a string property that may be absent. *)
Definition lengthIn (lo hi : nat) (s : option string) : bool :=
  match s with
  | Some v => (lo <=? String.length v)%nat && (String.length v <=? hi)%nat
  | None => true
  end.

Definition present {A} (o : option A) : bool :=
  match o with Some _ => true | None => false end.

(** [static get jsonSchema()]: [required] and the length bounds of the
    string properties (the [type] keywords are carried by the field
    types). *)
Definition jsonSchema (j : t) : bool :=
  present (cron j) && present (user j) && present (slash j)
  && lengthIn 1 50 (cron j)
  && lengthIn 9 9 (user j)
  && lengthIn 1 255 (slash j)
  && lengthIn 1 255 (action j)
  && lengthIn 9 9 (channel j)
  && lengthIn 3 4 (conversationAs j).
End Job.

(** ** Timers (the cron package, as far as the plugin observes it) *)

(** The first argument of [new CronJob]: a cron-syntax string, or a Date
    or moment, kept as milliseconds since the epoch. *)
Inductive CronTime :=
  | Pattern (source : string)
  | Instant (at_ms : Z).

(** A [CronJob] object.  [runOnce] is set by the library on start when
    the time is a real date; [running] is cleared by [stop()].
    [persistedJob] is the job captured by the tick callback's closure. *)
Record CronJob := mkCronJob {
  cronTime : CronTime;
  runOnce : bool;
  running : bool;
  persistedJob : Job.t;
}.

Definition stopped (j : CronJob) : CronJob :=
  {| cronTime := cronTime j; runOnce := runOnce j; running := false;
     persistedJob := persistedJob j |}.

(** ** Collaborators *)

(** Options of a dispatch: [{ channel, conversationWith, conversationAs }]. *)
Record Routing := mkRouting {
  r_channel : option string;
  r_conversationWith : option (list string);
  r_conversationAs : option string;
}.

Inductive Outcome (A : Type) :=
  | Ok (a : A)
  | Throw (e : Thrown).
Arguments Ok {A} a.
Arguments Throw {A} e.

(** [utils.emitAction] and [utils.emitSlash]: they resolve or reject. *)
Record Utils := mkUtils {
  emitAction : option string -> option string -> option string ->
               option Args -> Routing -> Outcome unit;
  emitSlash : option string -> option string -> option string ->
              Routing -> Outcome unit;
}.

(** The library functions the plugin relies on.
    - [moment_parse s] is [Some t] when [moment(s).isValid()], with [t]
      the parsed instant;
    - [toISOString t] renders an instant;
    - [JSON_stringify] serialises a participants array;
    - [collate_ge a b] is the store's [a >= b] on text columns;
    - [cronAccepts c] tells whether [new CronJob(c, ...)] returns rather
      than throws. *)
Record Host := mkHost {
  moment_parse : string -> option Z;
  toISOString : Z -> string;
  JSON_stringify : list string -> string;
  collate_ge : string -> string -> bool;
  cronAccepts : CronTime -> bool;
}.

(** ** The world *)

Inductive Query :=
  | QInsert (j : Job.t)
  | QFindById (i : JobId)
  | QPatch (n : Z) (p : Job.patch)
  | QWhereNullDone
  | QWhereKill (now : string).

Record World := mkWorld {
  rows : gmap Z Job.t;          (* the job table, by primary key *)
  nextId : Z;                   (* the auto-increment counter *)
  heap : gmap nat CronJob;      (* CronJob objects, by reference *)
  jobs : gmap JobId nat;        (* const jobs = {} *)
  queries : list Query;         (* queries sent to the store, oldest first *)
  clock : nat -> Z;             (* successive readings of the wall clock *)
  reads : nat;                  (* readings taken so far *)
}.

Definition M (A : Type) : Type := World -> Outcome A * World.

Definition ret {A} (a : A) : M A := fun w => (Ok a, w).

Definition throw {A} (e : Thrown) : M A := fun w => (Throw e, w).

Definition bind {A B} (m : M A) (k : A -> M B) : M B :=
  fun w =>
    match m w with
    | (Ok a, w') => k a w'
    | (Throw e, w') => (Throw e, w')
    end.

(** [try { body } catch (error) { handler }] *)
Definition try_catch {A} (body : M A) (handler : Thrown -> M A) : M A :=
  fun w =>
    match body w with
    | (Ok a, w') => (Ok a, w')
    | (Throw e, w') => handler e w'
    end.

(** A dispatch call: its outcome, no effect on the plugin's state. *)
Definition await {A} (o : Outcome A) : M A := fun w => (o, w).

Notation "x <- m ;; k" := (bind m (fun x => k))
  (at level 100, m at next level, right associativity).
Notation "m ;;; k" := (bind m (fun _ => k))
  (at level 100, right associativity).

(** A call whose promise nobody awaits: its effects happen, its outcome
    is dropped. *)
Definition detached {A} (m : M A) : M unit :=
  fun w => (Ok tt, snd (m w)).

(** [list.forEach(x => { f(x) })] with an un-awaited asynchronous [f]. *)
Fixpoint forEach {A B} (f : A -> M B) (l : list A) : M unit :=
  match l with
  | [] => ret tt
  | x :: l' => detached (f x) ;;; forEach f l'
  end.

(** [await Promise.all(l.map(f))]: every call is started and runs to its
    end whatever the others do; the result rejects with the first
    rejection.  The calls are run one after the other, in the order of
    the list. *)
Fixpoint promiseAll {A B} (f : A -> M B) (l : list A) : M unit :=
  match l with
  | [] => ret tt
  | x :: l' =>
      fun w =>
        match f x w with
        | (Ok _, w') => promiseAll f l' w'
        | (Throw e, w') => (Throw e, snd (promiseAll f l' w'))
        end
  end.

(** [moment()]: one reading of the clock. *)
Definition moment_now : M Z :=
  fun w =>
    (Ok (clock w (reads w)),
     {| rows := rows w; nextId := nextId w; heap := heap w; jobs := jobs w;
        queries := queries w; clock := clock w; reads := S (reads w) |}).

Definition logQuery (q : Query) : M unit :=
  fun w =>
    (Ok tt,
     {| rows := rows w; nextId := nextId w; heap := heap w; jobs := jobs w;
        queries := queries w ++ [q]; clock := clock w; reads := reads w |}).

Definition setRows (f : gmap Z Job.t -> gmap Z Job.t) : M unit :=
  fun w =>
    (Ok tt,
     {| rows := f (rows w); nextId := nextId w; heap := heap w; jobs := jobs w;
        queries := queries w; clock := clock w; reads := reads w |}).

Definition setHeap (f : gmap nat CronJob -> gmap nat CronJob) : M unit :=
  fun w =>
    (Ok tt,
     {| rows := rows w; nextId := nextId w; heap := f (heap w); jobs := jobs w;
        queries := queries w; clock := clock w; reads := reads w |}).

Definition setJobs (f : gmap JobId nat -> gmap JobId nat) : M unit :=
  fun w =>
    (Ok tt,
     {| rows := rows w; nextId := nextId w; heap := heap w; jobs := f (jobs w);
        queries := queries w; clock := clock w; reads := reads w |}).

Definition getWorld : M World := fun w => (Ok w, w).

(** ** The store (objection over the [job] table) *)

(** The model instance read from the row of primary key [n]: its [id] is
    the key. *)
Definition rowAt (n : Z) (j : Job.t) : Job.t := Job.withId (Num n) j.

Definition tableRows (w : World) : list Job.t :=
  map (fun nj => rowAt (fst nj) (snd nj)) (map_to_list (rows w)).

(** [Job.query().insert(obj)]: the object, which has no id yet, is
    validated against [jsonSchema] before any statement is sent; a valid
    one gets the next primary key. *)
Definition insert (obj : JobId -> Job.t) : M Job.t :=
  fun w =>
    let persisted := obj (Num (nextId w)) in
    if Job.jsonSchema persisted then
      (Ok persisted,
       {| rows := <[nextId w := persisted]> (rows w); nextId := nextId w + 1;
          heap := heap w; jobs := jobs w;
          queries := queries w ++ [QInsert persisted];
          clock := clock w; reads := reads w |})
    else (Throw (ValidationError "schema"), w).

(** [Job.query().findById(id)]: the row, or undefined. *)
Definition findById (i : JobId) : M (option Job.t) :=
  logQuery (QFindById i) ;;;
  w <- getWorld ;;
  ret (match i with Num n => rowAt n <$> rows w !! n | Sentinel => None end).

(** [instance.$query().patch(p)]: updates the row of the instance's id.
    The plain object of an ephemeral job has no [$query]. *)
Definition patch (instance : Job.t) (p : Job.patch) : M unit :=
  match Job.id instance with
  | Num n => logQuery (QPatch n p) ;;; setRows (alter (Job.applyPatch p) n)
  | Sentinel => throw (TypeError "persistedJob.$query is not a function")
  end.

(** [undefined.$query()] *)
Definition patchFound (found : option Job.t) (p : Job.patch) : M unit :=
  match found with
  | Some instance => patch instance p
  | None => throw (TypeError "Cannot read property '$query' of undefined")
  end.

Definition isNullDone (j : Job.t) : bool :=
  match Job.done j with None => true | Some _ => false end.

(** [Job.query().whereNull('done')] *)
Definition whereNullDone : M (list Job.t) :=
  logQuery QWhereNullDone ;;;
  w <- getWorld ;;
  ret (filter (fun j => isNullDone j = true) (tableRows w)).

(** ** The plugin ([lib/index.js], [pluginFactory]) *)

Module Filter.
(** The first argument of [killTasks].  [None] is an omitted property
    (for the first five, whose default is null, also a null one); an
    omitted [conversationAs] takes its default in [killTasks]. *)
Record t := mk {
  id : option JobId;
  user : option string;
  slash : option string;
  action : option string;
  conversationWith : option (list string);
  conversationAs : option string;
}.
End Filter.

(** [options] of [scheduleTask]. *)
Record Options := mkOptions {
  o_channel : option string;
  o_conversationWith : option (list string);
  o_conversationAs : option string;
}.

(** [if (id)]: null, 0 and the empty string are falsy. *)
Definition truthyId (i : JobId) : bool :=
  match i with
  | Num n => negb (n =? 0)%Z
  | Sentinel => true
  end.

Definition isSentinel (i : JobId) : bool := bool_decide (i = NO_PERSISTANCE).

Section Plugin.

Variable host : Host.
Variable utils : Utils.

(** [new CronJob(cronTime, onTick, null, true, 'UTC')]: the object is
    started at once; the library marks a timer built from a real date
    as [runOnce]. *)
Definition newCronJob (c : CronTime) (pj : Job.t) : M nat :=
  if cronAccepts host c then
    fun w =>
      let h := fresh (dom (heap w)) in
      let job := {| cronTime := c;
                    runOnce := match c with Instant _ => true | Pattern _ => false end;
                    running := true;
                    persistedJob := pj |} in
      (Ok h,
       {| rows := rows w; nextId := nextId w; heap := <[h := job]> (heap w);
          jobs := jobs w; queries := queries w; clock := clock w;
          reads := reads w |})
  else throw (CronError "invalid cron time").

(** [job.start()]: nothing to do on a timer that already runs. *)
Definition start (h : nat) : M unit :=
  setHeap (alter (fun j => {| cronTime := cronTime j; runOnce := runOnce j;
                              running := true; persistedJob := persistedJob j |}) h).

(** [job.stop()] *)
Definition stop (h : nat) : M unit := setHeap (alter stopped h).

(** The dispatch call of the tick callback: the action path when
    [action] is truthy, the slash path otherwise. *)
Definition dispatch (persistedJob : Job.t) : Outcome unit :=
  let routing := {| r_channel := Job.channel persistedJob;
                    r_conversationWith := Job.conversationWith persistedJob;
                    r_conversationAs := Job.conversationAs persistedJob |} in
  if truthy (Job.action persistedJob) then
    emitAction utils (Job.user persistedJob) (Job.slash persistedJob)
      (Job.action persistedJob) (Job.args persistedJob) routing
  else
    emitSlash utils (Job.user persistedJob) (Job.slash persistedJob)
      (Job.text persistedJob) routing.

(** The tick callback given to [new CronJob] in [setCronJob]; [job] is
    the timer the callback belongs to. *)
Definition onTick (persistedJob : Job.t) (job : CronJob) : M unit :=
  let id := Job.id persistedJob in
  try_catch
    (await (dispatch persistedJob) ;;;
     if runOnce job && negb (isSentinel id) then
       patch persistedJob {| Job.p_done := Some true; Job.p_error := None |}
     else ret tt)
    (fun error =>
       if negb (isSentinel id) then
         patch persistedJob {| Job.p_done := Some false;
                               Job.p_error := Some (toString error) |}
       else ret tt).

(** A timer elapses: the library clears [running] on a [runOnce] timer,
    re-arms the others, and calls the tick callback. *)
Definition fire (h : nat) : M unit :=
  w <- getWorld ;;
  match heap w !! h with
  | Some job =>
      if running job then
        (if runOnce job then stop h else ret tt) ;;;
        onTick (persistedJob job) job
      else ret tt
  | None => ret tt
  end.

(** [async function setCronJob(persistedJob, cronTime)] *)
Definition setCronJob (persistedJob : Job.t) (cronTime : CronTime) : M JobId :=
  let id := Job.id persistedJob in
  job <- newCronJob cronTime persistedJob ;;
  start job ;;;
  setJobs (<[id := job]>) ;;;
  ret id.

(** [async function scheduleTask(database, cronTime, user, slash, text,
    action, args, options)].  Reading [options.channel] of an undefined
    [options] throws while the record is being built.  [sessionId:
    this.sessionId] is left out: the function is called without a
    receiver, the property is undefined and is no column of the table. *)
Definition scheduleTask (cronTime : CronTime)
    (user slash text action : option string) (args : option Args)
    (options : option Options) : M JobId :=
  match options with
  | None => throw (TypeError "Cannot read property 'channel' of undefined")
  | Some o =>
      persistedJob <- insert (fun id =>
        {| Job.id := id;
           Job.cron := Some (match cronTime with
                             | Pattern s => s
                             | Instant t => toISOString host t
                             end);
           Job.user := user; Job.slash := slash; Job.text := text;
           Job.action := action; Job.args := args;
           Job.channel := o_channel o;
           Job.conversationWith := o_conversationWith o;
           Job.conversationAs := o_conversationAs o;
           Job.done := None; Job.error := None |}) ;;
      setCronJob persistedJob cronTime
  end.

(** [async function cancelCronJob(database, id, message)] *)
Definition cancelCronJob (id : JobId) (message : string) : M unit :=
  w <- getWorld ;;
  match jobs w !! id with
  | None => throw (TypeError "Cannot read property 'stop' of undefined")
  | Some job =>
      stop job ;;;
      setJobs (delete id) ;;;
      persistedJob <- findById id ;;
      patchFound persistedJob {| Job.p_done := Some false;
                                 Job.p_error := Some message |}
  end.

(** One spread condition of [andWhere({...})]: present only when the
    filter value is truthy. *)
Definition whereEq (f col : option string) : bool :=
  if truthy f then bool_decide (col = f) else true.

(** The [where] clause built by [killTasks]. *)
Definition killWhere (now : string) (user slash action : option string)
    (conversationWith : option (list string)) (conversationAs : option string)
    (j : Job.t) : bool :=
  isNullDone j
  && match Job.cron j with Some c => collate_ge host c now | None => false end
  && whereEq user (Job.user j)
  && whereEq slash (Job.slash j)
  && whereEq action (Job.action j)
  && whereEq conversationAs (Job.conversationAs j)
  && match conversationWith with
     | Some l => bool_decide (JSON_stringify host <$> Job.conversationWith j
                              = Some (JSON_stringify host l))
     | None => true
     end.

Definition selectKill (now : string) (user slash action : option string)
    (conversationWith : option (list string)) (conversationAs : option string)
    : M (list Job.t) :=
  logQuery (QWhereKill now) ;;;
  w <- getWorld ;;
  ret (filter (fun j => killWhere now user slash action conversationWith
                          conversationAs j = true)
         (tableRows w)).

(** [async function killTasks(database, { id = null, user = null, slash =
    null, action = null, conversationWith = null, conversationAs = 'bot' },
    message = 'Killed by Aido command')] *)
Definition killTasks (a : Filter.t) (message : option string) : M unit :=
  let conversationAs := Some (default "bot" (Filter.conversationAs a)) in
  let message := default "Killed by Aido command" message in
  let byFilter : M unit :=
    now <- moment_now ;;
    persistedJobs <- selectKill (toISOString host now) (Filter.user a)
                       (Filter.slash a) (Filter.action a)
                       (Filter.conversationWith a) conversationAs ;;
    promiseAll (fun job => cancelCronJob (Job.id job) message) persistedJobs in
  match Filter.id a with
  | Some id => if truthyId id then cancelCronJob id message else byFilter
  | None => byFilter
  end.

(** The time [initPlugin] computes for a pending row from its [cron]
    string. *)
Definition recoverCronTime (cron : string) : M CronTime :=
  match moment_parse host cron with
  | Some t =>
      now <- moment_now ;;
      if (t <? now)%Z then
        now' <- moment_now ;;
        ret (Instant (now' + 1000))
      else ret (Instant t)
  | None => ret (Pattern cron)
  end.

(** The body of the [forEach] of [initPlugin].  A row without [cron]
    (the schema requires it) would hand a null time to [new CronJob],
    which throws. *)
Definition requeue (job : Job.t) : M JobId :=
  match Job.cron job with
  | Some cron =>
      cronTime <- recoverCronTime cron ;;
      setCronJob job cronTime
  | None => throw (TypeError "cron time must be specified")
  end.

(** [async function initPlugin(database)] *)
Definition initPlugin : M unit :=
  pending <- whereNullDone ;;
  forEach requeue pending.

(** [getHelpers(database).setCronJob]: a job under the sentinel id, never
    inserted. *)
Definition helpers_setCronJob (cronTime : CronTime)
    (user slash text action : option string) (args : option Args)
    (channel : option string) (conversationWith : option (list string))
    (conversationAs : option string) : M unit :=
  let persistedJob :=
    {| Job.id := NO_PERSISTANCE; Job.cron := None; Job.user := user;
       Job.slash := slash; Job.text := text; Job.action := action;
       Job.args := args; Job.channel := channel;
       Job.conversationWith := conversationWith;
       Job.conversationAs := conversationAs;
       Job.done := None; Job.error := None |} in
  detached (setCronJob persistedJob cronTime).

End Plugin.

(** ** The statements of the specification, in its own words *)

(** Recovery, section 4.1: a valid instant strictly in the past becomes
    now plus one second, any other valid instant is kept, anything else is
    a recurring pattern.  [now] is the reading compared against, [now']
    the reading the repaired time is computed from. *)
Definition spec_recoverTime (parsed : option Z) (now now' : Z) (cron : string)
    : CronTime :=
  match parsed with
  | Some t => if decide (t < now)%Z then Instant (now' + 1000) else Instant t
  | None => Pattern cron
  end.

(** Filter path, section 4.3: pending, time still [>=] now, every
    provided field equal, participants structurally equal, posting mode
    (default ["bot"]) always compared. *)
Definition spec_selected (ge : string -> string -> bool) (now : string)
    (a : Filter.t) (j : Job.t) : Prop :=
  Job.done j = None
  /\ (exists c, Job.cron j = Some c /\ ge c now = true)
  /\ (forall u, Filter.user a = Some u -> Job.user j = Some u)
  /\ (forall s, Filter.slash a = Some s -> Job.slash j = Some s)
  /\ (forall x, Filter.action a = Some x -> Job.action j = Some x)
  /\ (forall l, Filter.conversationWith a = Some l ->
                Job.conversationWith j = Some l)
  /\ Job.conversationAs j = Some (default "bot" (Filter.conversationAs a)).

(** A filter whose string fields, when given, are non-empty. *)
Definition nonEmptyFields (a : Filter.t) : Prop :=
  Filter.user a <> Some "" /\ Filter.slash a <> Some ""
  /\ Filter.action a <> Some "" /\ Filter.conversationAs a <> Some "".

(** [killTasks] takes the filter path: no id, or a falsy one. *)
Definition noId (a : Filter.t) : Prop :=
  match Filter.id a with
  | Some i => truthyId i = false
  | None => True
  end.

(** The shape constraints on a record to insert: [cron], [user] and
    [slash] present, [cron] of 1 to 50 characters, [user] of exactly 9,
    [channel] of exactly 9 and [conversationAs] of 3 to 4 when present. *)
Definition spec_shape (cron user slash channel conversationAs : option string)
    : bool :=
  Job.present cron && Job.present user && Job.present slash
  && match cron with
     | Some c => (1 <=? String.length c)%nat && (String.length c <=? 50)%nat
     | None => true
     end
  && match user with
     | Some u => (String.length u =? 9)%nat
     | None => true
     end
  && match channel with
     | Some c => (String.length c =? 9)%nat
     | None => true
     end
  && match conversationAs with
     | Some c => (3 <=? String.length c)%nat && (String.length c <=? 4)%nat
     | None => true
     end.

(** The [cron] column [scheduleTask] writes for a time. *)
Definition cronColumn (host : Host) (cronTime : CronTime) : string :=
  match cronTime with
  | Pattern s => s
  | Instant t => toISOString host t
  end.

(** [k] successive firings of the timer [h]. *)
Fixpoint fireTimes (utils : Utils) (h : nat) (k : nat) : M unit :=
  match k with
  | O => ret tt
  | S k' => fire utils h ;;; fireTimes utils h k'
  end.

(** ** Sample data *)

Definition isoOf (t : Z) : string :=
  if (t =? 1893456000000)%Z then "2030-01-01T00:00:00.000Z"
  else if (t =? 1577836800000)%Z then "2020-01-01T00:00:00.000Z"
  else "2026-11-02T00:00:00.000Z".

Definition parseIso (s : string) : option Z :=
  if String.eqb s "2030-01-01T00:00:00.000Z" then Some 1893456000000%Z
  else if String.eqb s "2020-01-01T00:00:00.000Z" then Some 1577836800000%Z
  else None.

(** A host with a byte-wise collation. *)
Definition sampleHost : Host :=
  {| moment_parse := parseIso;
     toISOString := isoOf;
     JSON_stringify := fun l => pretty (encode l);
     collate_ge := fun a b => String.leb b a;
     cronAccepts := fun _ => true |}.

(** A host whose cron library refuses every time. *)
Definition refusingHost : Host :=
  {| moment_parse := parseIso;
     toISOString := isoOf;
     JSON_stringify := fun l => pretty (encode l);
     collate_ge := fun a b => String.leb b a;
     cronAccepts := fun _ => false |}.

Definition utilsOk : Utils :=
  {| emitAction := fun _ _ _ _ _ => Ok tt;
     emitSlash := fun _ _ _ _ => Ok tt |}.

Definition utilsDown : Utils :=
  {| emitAction := fun _ _ _ _ _ => Throw (ThrownStr "network down");
     emitSlash := fun _ _ _ _ => Throw (ThrownStr "network down") |}.

Definition sampleJob (i : JobId) (cron : string) (user : string) : Job.t :=
  {| Job.id := i; Job.cron := Some cron; Job.user := Some user;
     Job.slash := Some "ping"; Job.text := Some "hi"; Job.action := None;
     Job.args := None; Job.channel := None; Job.conversationWith := None;
     Job.conversationAs := Some "bot"; Job.done := None; Job.error := None |}.

Definition sampleClock (k : nat) : Z := 1793577600000 + Z.of_nat k.

Definition emptyWorld : World :=
  {| rows := ∅; nextId := 1; heap := ∅; jobs := ∅; queries := [];
     clock := sampleClock; reads := 0 |}.

Definition job1 : Job.t := sampleJob (Num 1) "2030-01-01T00:00:00.000Z" "U12345678".
Definition job2 : Job.t := sampleJob (Num 2) "0 */10 * * * *" "U12345678".

Definition timer1 : CronJob :=
  {| cronTime := Instant 1893456000000; runOnce := true; running := true;
     persistedJob := job1 |}.

Definition timer2 : CronJob :=
  {| cronTime := Pattern "0 */10 * * * *"; runOnce := false; running := true;
     persistedJob := job2 |}.

(** The store holds a one-shot job 1 and a recurring job 2, both pending
    and both with a live timer. *)
Definition sampleWorld : World :=
  {| rows := <[1%Z := job1]> (<[2%Z := job2]> ∅);
     nextId := 3;
     heap := <[0%nat := timer1]> (<[1%nat := timer2]> ∅);
     jobs := <[Num 1 := 0%nat]> (<[Num 2 := 1%nat]> ∅);
     queries := []; clock := sampleClock; reads := 0 |}.

(** An ephemeral recurring job has been set through the helper. *)
Definition ephemeralWorld : World :=
  snd (helpers_setCronJob sampleHost (Pattern "0 */10 * * * *")
         (Some "U12345678") (Some "ping") None None None None None None
         emptyWorld).

Definition byId (i : JobId) : Filter.t :=
  {| Filter.id := Some i; Filter.user := None; Filter.slash := None;
     Filter.action := None; Filter.conversationWith := None;
     Filter.conversationAs := None |}.

Definition byUser (u : string) : Filter.t :=
  {| Filter.id := None; Filter.user := Some u; Filter.slash := None;
     Filter.action := None; Filter.conversationWith := None;
     Filter.conversationAs := None |}.

(** ** The methods of the class built by [slashFactory] *)

(** [a || b] on possibly absent strings. *)
Definition orElse (a b : option string) : option string :=
  if truthy a then a else b.

(** [...x && { key: x }] for a string [x]: the key is there when [x] is
    truthy. *)
Definition spreadIf (x : option string) : option string :=
  if truthy x then x else None.

(** The receiver of the methods: [this.user] (when defined, its
    [slackId]), [this.command], [this.text], [this.action] and the
    transport of the current request. *)
Record SlashThis := mkSlashThis {
  this_user : option (option string);
  this_command : option string;
  this_text : option string;
  this_action : option string;
  this_channel : option string;
  this_conversationWith : option (list string);
  this_conversationAs : option string;
  this_sessionId : option string;
}.

(** The object built when [options] is not given.  Its [sessionId] is
    never read by [scheduleTask]. *)
Definition Slash_defaultOptions (this : SlashThis) : Options :=
  {| o_channel := spreadIf (this_channel this);
     o_conversationWith := this_conversationWith this;
     o_conversationAs := spreadIf (this_conversationAs this) |}.

(** [async scheduleTask(cronTime, user, slash, text, action, args = {},
    options)] of the class [Slash].  The arguments of the inner call are
    evaluated first; [this.user.slackId] is read only when [user] is
    falsy. *)
Definition Slash_scheduleTask (host : Host) (this : SlashThis)
    (cronTime : CronTime) (user slash text action : option string)
    (args : option Args) (options : option Options) : M JobId :=
  match (if truthy user then Some user else this_user this) with
  | None => throw (TypeError "Cannot read property 'slackId' of undefined")
  | Some user' =>
      scheduleTask host cronTime user'
        (orElse slash (this_command this))
        (orElse text (this_text this))
        (orElse action (this_action this))
        (Some (default [] args))
        (Some (default (Slash_defaultOptions this) options))
  end.

(** ** A process and the calls it receives *)

(** The module is loaded by a new process: [const jobs = {}], no timer;
    the table is what the store holds. *)
Definition restart (w : World) : World :=
  {| rows := rows w; nextId := nextId w; heap := ∅; jobs := ∅;
     queries := queries w; clock := clock w; reads := reads w |}.

(** The timer [new CronJob] builds. *)
Definition timerOf (c : CronTime) (pj : Job.t) : CronJob :=
  {| cronTime := c;
     runOnce := match c with Instant _ => true | Pattern _ => false end;
     running := true;
     persistedJob := pj |}.

(** The world after a [setCronJob] the library accepts. *)
Definition registered (pj : Job.t) (c : CronTime) (w : World) : World :=
  {| rows := rows w; nextId := nextId w;
     heap := <[fresh (dom (heap w)) := timerOf c pj]> (heap w);
     jobs := <[Job.id pj := fresh (dom (heap w))]> (jobs w);
     queries := queries w; clock := clock w; reads := reads w |}.

(** The record [scheduleTask] hands to [insert], with the id the store
    gives it. *)
Definition recordOf (host : Host) (cronTime : CronTime)
    (user slash text action : option string) (args : option Args)
    (o : Options) (id : JobId) : Job.t :=
  {| Job.id := id;
     Job.cron := Some (match cronTime with
                       | Pattern s => s
                       | Instant t => toISOString host t
                       end);
     Job.user := user; Job.slash := slash; Job.text := text;
     Job.action := action; Job.args := args;
     Job.channel := o_channel o;
     Job.conversationWith := o_conversationWith o;
     Job.conversationAs := o_conversationAs o;
     Job.done := None; Job.error := None |}.

(** The world after a valid [insert]. *)
Definition inserted (persisted : Job.t) (w : World) : World :=
  {| rows := <[nextId w := persisted]> (rows w); nextId := nextId w + 1;
     heap := heap w; jobs := jobs w;
     queries := queries w ++ [QInsert persisted];
     clock := clock w; reads := reads w |}.

(** The time recovery computes for a [cron] text when its first clock
    reading is the [k]-th. *)
Definition recoveredAt (host : Host) (w : World) (k : nat) (cron : string)
    : CronTime :=
  spec_recoverTime (moment_parse host cron) (clock w k) (clock w (S k)) cron.

(** What reaches the plugin: the calls of its interface and the ticks of
    its timers, each tick with the behaviour of the dispatch callables at
    that moment. *)
Inductive Call :=
  | CallScheduleTask (cronTime : CronTime)
      (user slash text action : option string) (args : option Args)
      (options : option Options)
  | CallSlashScheduleTask (this : SlashThis) (cronTime : CronTime)
      (user slash text action : option string) (args : option Args)
      (options : option Options)
  | CallSetCronJob (cronTime : CronTime)
      (user slash text action : option string) (args : option Args)
      (channel : option string) (conversationWith : option (list string))
      (conversationAs : option string)
  | CallKillTasks (a : Filter.t) (message : option string)
  | CallInitPlugin
  | Tick (utils : Utils) (h : nat).

(** The world a call leaves. *)
Definition call (host : Host) (c : Call) (w : World) : World :=
  match c with
  | CallScheduleTask cronTime user slash text action args options =>
      snd (scheduleTask host cronTime user slash text action args options w)
  | CallSlashScheduleTask this cronTime user slash text action args options =>
      snd (Slash_scheduleTask host this cronTime user slash text action args
             options w)
  | CallSetCronJob cronTime user slash text action args channel
      conversationWith conversationAs =>
      snd (helpers_setCronJob host cronTime user slash text action args
             channel conversationWith conversationAs w)
  | CallKillTasks a message => snd (killTasks host a message w)
  | CallInitPlugin => snd (initPlugin host w)
  | Tick utils h => snd (fire utils h w)
  end.

Definition session (host : Host) (calls : list Call) (w : World) : World :=
  foldl (fun w' c => call host c w') w calls.

(** The task of a job: everything but the outcome columns. *)
Definition task (j : Job.t) : Job.t :=
  {| Job.id := Job.id j; Job.cron := Job.cron j; Job.user := Job.user j;
     Job.slash := Job.slash j; Job.text := Job.text j;
     Job.action := Job.action j; Job.args := Job.args j;
     Job.channel := Job.channel j;
     Job.conversationWith := Job.conversationWith j;
     Job.conversationAs := Job.conversationAs j;
     Job.done := None; Job.error := None |}.

(** Every row carries its key as id, below the auto-increment counter,
    and satisfies the schema. *)
Definition storeInv (w : World) : Prop :=
  forall n row, rows w !! n = Some row ->
    Job.id row = Num n /\ (n < nextId w)%Z /\ Job.jsonSchema row = true.

(** Every timer of a persisted job carries the task of the row of its
    id. *)
Definition timersInv (w : World) : Prop :=
  forall h timer n, heap w !! h = Some timer ->
    Job.id (persistedJob timer) = Num n ->
    exists row, rows w !! n = Some row /\ task row = task (persistedJob timer).

(** Every entry of [jobs] refers to a timer of a job of that id. *)
Definition registryInv (w : World) : Prop :=
  forall i h, jobs w !! i = Some h ->
    exists timer, heap w !! h = Some timer /\ Job.id (persistedJob timer) = i.

(** Every pending row has an entry in [jobs]. *)
Definition pendingInv (w : World) : Prop :=
  forall n row, rows w !! n = Some row -> Job.done row = None ->
    is_Some (jobs w !! Num n).

(** The cron library refused a time of the row: the time [scheduleTask]
    was given, which the row stores, or the time recovery computes from
    the stored text at some reading of the clock. *)
Definition refusedRow (host : Host) (clk : nat -> Z) (row : Job.t) : Prop :=
  exists c, cronAccepts host c = false
    /\ (Job.cron row = Some (cronColumn host c)
        \/ exists cron k,
             Job.cron row = Some cron
             /\ c = spec_recoverTime (moment_parse host cron) (clk k)
                      (clk (S k)) cron).

(** Every pending row has an entry in [jobs], unless the library refused
    its time. *)
Definition pendingOrRefused (host : Host) (w : World) : Prop :=
  forall n row, rows w !! n = Some row -> Job.done row = None ->
    is_Some (jobs w !! Num n) \/ refusedRow host (clock w) row.

Definition pluginInv (w : World) : Prop :=
  storeInv w /\ timersInv w /\ registryInv w.

(** ** The filter path as the code has it *)



(** ** More sample data *)





(** The clock does not advance. *)
Definition frozenWorld : World :=
  {| rows := ∅; nextId := 1; heap := ∅; jobs := ∅; queries := [];
     clock := fun _ => 1793577600000%Z; reads := 0 |}.

Definition noOptions : Options :=
  {| o_channel := None; o_conversationWith := None; o_conversationAs := None |}.

(** The world after a one-shot job has been scheduled in the empty one. *)
Definition scheduledWorld : World :=
  snd (scheduleTask sampleHost (Instant 1893456000000) (Some "U12345678")
         (Some "ping") (Some "hi") None None (Some noOptions) emptyWorld).

(** A request handled by an action of the application. *)
Definition actionRequest : SlashThis :=
  {| this_user := Some (Some "U12345678"); this_command := Some "fnord";
     this_text := None; this_action := Some "someAction";
     this_channel := None; this_conversationWith := None;
     this_conversationAs := None; this_sessionId := None |}.

Definition sampleCalls : list Call :=
  [CallScheduleTask (Pattern "0 */10 * * * *") (Some "U12345678")
     (Some "ping") None None None (Some noOptions);
   CallSetCronJob (Pattern "* * * * * *") (Some "U12345678") (Some "ping")
     None None None None None None;
   Tick utilsDown 0;
   CallKillTasks (byUser "U12345678") None;
   CallInitPlugin].

(** * Properties *)


Ltac run :=
  unfold bind, ret, throw, try_catch, await, getWorld, logQuery, setRows,
    setHeap, setJobs, detached; simpl.

Definition doneTrue : Job.patch := {| Job.p_done := Some true; Job.p_error := None |}.

Definition doneFalse (message : string) : Job.patch :=
  {| Job.p_done := Some false; Job.p_error := Some message |}.

(** What a cancellation that finds a timer leaves behind. *)
Definition cancelled (i : JobId) (message : string) (h : nat) (w : World)
    : World :=
  {| rows := match i with
             | Num n => alter (Job.applyPatch (doneFalse message)) n (rows w)
             | Sentinel => rows w
             end;
     nextId := nextId w;
     heap := alter stopped h (heap w);
     jobs := delete i (jobs w);
     queries := queries w ++ QFindById i ::
                  match i with
                  | Num n => match rows w !! n with
                             | Some _ => [QPatch n (doneFalse message)]
                             | None => []
                             end
                  | Sentinel => []
                  end;
     clock := clock w; reads := reads w |}.

(** Its outcome: the patch needs the row that [findById] returned. *)
Definition cancelOutcome (i : JobId) (w : World) : Outcome unit :=
  match i with
  | Num n => match rows w !! n with
             | Some _ => Ok tt
             | None => Throw (TypeError "Cannot read property '$query' of undefined")
             end
  | Sentinel => Throw (TypeError "Cannot read property '$query' of undefined")
  end.

(** The world after cancelling, one after the other, the jobs of a list. *)
Definition cancelEach (message : string) (l : list Job.t) (w : World) : World :=
  foldl (fun w' job => snd (cancelCronJob (Job.id job) message w')) w l.

Lemma isSentinel_Num n : isSentinel (Num n) = false.
Proof. reflexivity. Qed.

Section Firing.

Variable utils : Utils.

Lemma patch_persisted pj p n w :
  Job.id pj = Num n ->
  patch pj p w
  = (Ok tt,
     {| rows := alter (Job.applyPatch p) n (rows w); nextId := nextId w;
        heap := heap w; jobs := jobs w; queries := queries w ++ [QPatch n p];
        clock := clock w; reads := reads w |}).
Proof. intros Hid. unfold patch. rewrite Hid. reflexivity. Qed.

(** The tick callback of a persisted job, by cases on the dispatch
    outcome and on [runOnce]. *)
Lemma onTick_persisted pj job n w :
  Job.id pj = Num n ->
  onTick utils pj job w
  = match dispatch utils pj with
    | Ok _ => if runOnce job then patch pj doneTrue w else (Ok tt, w)
    | Throw e => patch pj (doneFalse (toString e)) w
    end.
Proof.
  intros Hid. unfold onTick. run. rewrite Hid, isSentinel_Num.
  destruct (dispatch utils pj) as [[]|e]; simpl; [|reflexivity].
  rewrite andb_true_r. destruct (runOnce job); [|reflexivity].
  rewrite !(patch_persisted _ _ n) by done. reflexivity.
Qed.

(** The tick callback of an ephemeral job never reaches the store. *)
Lemma onTick_ephemeral pj job w :
  Job.id pj = NO_PERSISTANCE -> onTick utils pj job w = (Ok tt, w).
Proof.
  intros Hid. unfold onTick. run. rewrite Hid.
  destruct (dispatch utils pj) as [[]|e]; simpl; [|reflexivity].
  rewrite andb_false_r. reflexivity.
Qed.

(** The callback touches neither the timers nor the [jobs] object. *)
Lemma onTick_timers pj job w :
  heap (snd (onTick utils pj job w)) = heap w
  /\ jobs (snd (onTick utils pj job w)) = jobs w.
Proof.
  destruct (Job.id pj) as [n|] eqn:Hid.
  - rewrite (onTick_persisted _ _ n) by done.
    destruct (dispatch utils pj) as [[]|e]; [destruct (runOnce job)|];
      rewrite ?(patch_persisted _ _ n) by done; done.
  - rewrite onTick_ephemeral by done. done.
Qed.

Lemma fire_jobs h w : jobs (snd (fire utils h w)) = jobs w.
Proof.
  unfold fire. run. destruct (heap w !! h) as [job|]; [|done].
  destruct (running job); [|done].
  destruct (runOnce job); unfold stop; run;
    (etrans; [apply (proj2 (onTick_timers _ _ _))|]); reflexivity.
Qed.

(** A running recurring timer fires by running its callback, nothing
    more. *)
Lemma fire_recurring h job w :
  heap w !! h = Some job -> running job = true -> runOnce job = false ->
  fire utils h w = onTick utils (persistedJob job) job w.
Proof.
  intros Hh Hrun Honce. unfold fire. run. rewrite Hh, Hrun, Honce.
  destruct w; reflexivity.
Qed.

(** C1. A persisted job whose dispatch call succeeds: a one-shot timer
    patches the record to [done = true]; a recurring timer changes
    nothing, so a completion flag that was unset stays unset. *)
Theorem success_patches_one_shot_only pj job n row w :
  Job.id pj = Num n ->
  rows w !! n = Some row ->
  dispatch utils pj = Ok tt ->
  (runOnce job = true ->
     fst (onTick utils pj job w) = Ok tt
     /\ rows (snd (onTick utils pj job w)) !! n
        = Some (Job.applyPatch doneTrue row)
     /\ Job.done <$> rows (snd (onTick utils pj job w)) !! n = Some (Some true))
  /\ (runOnce job = false ->
        onTick utils pj job w = (Ok tt, w)
        /\ (Job.done row = None ->
            Job.done <$> rows (snd (onTick utils pj job w)) !! n = Some None)).
Proof.
  intros Hid Hrow Hok. rewrite (onTick_persisted _ _ n) by done. rewrite Hok.
  split; intros ->.
  - rewrite (patch_persisted _ _ n) by done. simpl.
    rewrite lookup_alter_eq, Hrow. done.
  - split; [done|]. intros Hdone. simpl. rewrite Hrow. simpl. by rewrite Hdone.
Qed.

(** C3. A dispatch error is caught: the callback returns normally, the
    record of a persisted job is patched to [done = false] with the
    stringified error, an ephemeral job reaches the store not at all, and
    neither the timers nor [jobs] change, so that a recurring timer is
    still running after the failed firing. *)
Theorem dispatch_error_is_caught pj job e w :
  dispatch utils pj = Throw e ->
  fst (onTick utils pj job w) = Ok tt
  /\ heap (snd (onTick utils pj job w)) = heap w
  /\ jobs (snd (onTick utils pj job w)) = jobs w
  /\ (forall n row, Job.id pj = Num n -> rows w !! n = Some row ->
        rows (snd (onTick utils pj job w)) !! n
        = Some (Job.applyPatch (doneFalse (toString e)) row)
        /\ queries (snd (onTick utils pj job w))
           = (queries w ++ [QPatch n (doneFalse (toString e))])%list)
  /\ (Job.id pj = NO_PERSISTANCE -> onTick utils pj job w = (Ok tt, w))
  /\ (forall h, heap w !! h = Some job -> persistedJob job = pj ->
        running job = true -> runOnce job = false ->
        fst (fire utils h w) = Ok tt
        /\ heap (snd (fire utils h w)) !! h = Some job
        /\ jobs (snd (fire utils h w)) = jobs w).
Proof.
  intros Herr.
  assert (Hfst : fst (onTick utils pj job w) = Ok tt).
  { destruct (Job.id pj) as [n|] eqn:Hid.
    - rewrite (onTick_persisted _ _ n), Herr, (patch_persisted _ _ n); done.
    - by rewrite onTick_ephemeral. }
  destruct (onTick_timers pj job w) as [Hheap Hjobs].
  repeat split; try done.
  - rewrite (onTick_persisted _ _ n), Herr, (patch_persisted _ _ n) by done.
    simpl. by rewrite lookup_alter_eq, H0.
  - rewrite (onTick_persisted _ _ n), Herr, (patch_persisted _ _ n); done.
  - by apply onTick_ephemeral.
  - rewrite (fire_recurring h job), H0; done.
  - rewrite (fire_recurring h job), H0, Hheap; done.
  - apply fire_jobs.
Qed.

Lemma cancelCronJob_absent i message w :
  jobs w !! i = None ->
  cancelCronJob i message w
  = (Throw (TypeError "Cannot read property 'stop' of undefined"), w).
Proof. intros H. unfold cancelCronJob. run. by rewrite H. Qed.

Lemma alter_absent {A} (f : A -> A) (n : Z) (m : gmap Z A) :
  m !! n = None -> alter f n m = m.
Proof.
  intros H. apply map_eq. intros k. rewrite lookup_alter.
  case_decide; [subst; by rewrite H|done].
Qed.

Lemma cancelCronJob_present i message h w :
  jobs w !! i = Some h ->
  cancelCronJob i message w = (cancelOutcome i w, cancelled i message h w).
Proof.
  intros H. unfold cancelCronJob, stop, findById, patchFound. run. rewrite H.
  destruct i as [n|]; simpl.
  - destruct (rows w !! n) as [row|] eqn:Hrow; simpl.
    + unfold patch. run. unfold cancelled. rewrite Hrow, <- app_assoc. reflexivity.
    + unfold cancelled. rewrite Hrow, alter_absent by done. reflexivity.
  - reflexivity.
Qed.

Lemma cancelCronJob_jobs i message w :
  jobs (snd (cancelCronJob i message w)) !! i = None.
Proof.
  destruct (jobs w !! i) as [h|] eqn:H.
  - rewrite (cancelCronJob_present _ _ h) by done. simpl. apply lookup_delete_eq.
  - by rewrite cancelCronJob_absent.
Qed.

(** C5, as the code has it. The entry of a job leaves [jobs] when the job
    is cancelled; a firing leaves [jobs] as it was, also the firing that
    completes a one-shot job: its record becomes [done = true] and its
    timer is stopped by the library, but stays registered. *)
Theorem registry_entry_removed_by_cancel_only h i message w :
  jobs (snd (cancelCronJob i message w)) !! i = None
  /\ jobs (snd (fire utils h w)) = jobs w
  /\ (forall job n row,
        heap w !! h = Some job -> running job = true -> runOnce job = true ->
        Job.id (persistedJob job) = Num n -> rows w !! n = Some row ->
        dispatch utils (persistedJob job) = Ok tt ->
        Job.done <$> rows (snd (fire utils h w)) !! n = Some (Some true)
        /\ jobs (snd (fire utils h w)) !! Num n = jobs w !! Num n).
Proof.
  split; [apply cancelCronJob_jobs|]. split; [apply fire_jobs|].
  intros job n row Hh Hrun Honce Hid Hrow Hok. split; [|by rewrite fire_jobs].
  unfold fire, stop. run. rewrite Hh, Hrun, Honce. simpl.
  rewrite (onTick_persisted _ _ n), Hok, Honce, (patch_persisted _ _ n) by done.
  simpl. by rewrite lookup_alter_eq, Hrow.
Qed.


End Firing.

Section Cancellation.

Variable host : Host.

Lemma killTasks_by_id a message i w :
  Filter.id a = Some i -> truthyId i = true ->
  killTasks host a message w
  = cancelCronJob i (default "Killed by Aido command" message) w.
Proof. intros Hid Ht. unfold killTasks. by rewrite Hid, Ht. Qed.

(** C4. Cancelling by id a persisted job with a live timer stops the
    timer, removes the entry from [jobs] and patches the record to
    [done = false] with the message, ['Killed by Aido command'] when none
    is given.  The timer's [running] flag is cleared and its time and job
    are kept; the row ends with [done = false] and [error] the message,
    its other columns as they were; the store receives [findById] and
    then the patch [{ done: false, error: message }]; no other row and
    no other entry of [jobs] changes. *)
Theorem cancel_by_id_stops_and_patches a message n h timer row w :
  Filter.id a = Some (Num n) ->
  n <> 0%Z ->
  jobs w !! Num n = Some h ->
  heap w !! h = Some timer ->
  rows w !! n = Some row ->
  fst (killTasks host a message w) = Ok tt
  /\ heap (snd (killTasks host a message w)) !! h = Some (stopped timer)
  /\ running (stopped timer) = false
  /\ jobs (snd (killTasks host a message w)) !! Num n = None
  /\ rows (snd (killTasks host a message w)) !! n
     = Some (Job.applyPatch
               (doneFalse (default "Killed by Aido command" message)) row)
  /\ heap (snd (killTasks host a message w)) !! h
     = Some {| cronTime := cronTime timer; runOnce := runOnce timer;
               running := false; persistedJob := persistedJob timer |}
  /\ rows (snd (killTasks host a message w)) !! n
     = Some {| Job.id := Job.id row; Job.cron := Job.cron row;
               Job.user := Job.user row; Job.slash := Job.slash row;
               Job.text := Job.text row; Job.action := Job.action row;
               Job.args := Job.args row; Job.channel := Job.channel row;
               Job.conversationWith := Job.conversationWith row;
               Job.conversationAs := Job.conversationAs row;
               Job.done := Some false;
               Job.error := Some (default "Killed by Aido command" message) |}
  /\ queries (snd (killTasks host a message w))
     = (queries w
        ++ [QFindById (Num n);
            QPatch n {| Job.p_done := Some false;
                        Job.p_error :=
                          Some (default "Killed by Aido command" message) |}])%list
  /\ (forall m, m <> n ->
        rows (snd (killTasks host a message w)) !! m = rows w !! m)
  /\ (forall i, i <> Num n ->
        jobs (snd (killTasks host a message w)) !! i = jobs w !! i)
  /\ (forall h', h' <> h ->
        heap (snd (killTasks host a message w)) !! h' = heap w !! h').
Proof.
  intros Hid Hn Hjobs Hheap Hrow.
  rewrite (killTasks_by_id _ _ (Num n)), (cancelCronJob_present _ _ h); try done.
  - simpl. rewrite Hrow, !lookup_alter_eq, Hheap, Hrow, lookup_delete_eq.
    repeat split; try done.
    + intros m Hm. by rewrite lookup_alter_ne.
    + intros i Hi. by rewrite lookup_delete_ne.
    + intros h' Hh'. by rewrite lookup_alter_ne.
  - simpl. by apply negb_true_iff, Z.eqb_neq.
Qed.

(** Cancelling the sentinel id: the timer is stopped and unregistered,
    then [findById] is sent to the store and the call throws on its
    undefined result. *)
Lemma cancel_sentinel a message h w :
  Filter.id a = Some NO_PERSISTANCE ->
  jobs w !! NO_PERSISTANCE = Some h ->
  killTasks host a message w
  = (Throw (TypeError "Cannot read property '$query' of undefined"),
     {| rows := rows w; nextId := nextId w; heap := alter stopped h (heap w);
        jobs := delete NO_PERSISTANCE (jobs w);
        queries := queries w ++ [QFindById NO_PERSISTANCE];
        clock := clock w; reads := reads w |}).
Proof.
  intros Hid Hjobs.
  rewrite (killTasks_by_id _ _ NO_PERSISTANCE), (cancelCronJob_present _ _ h);
    done.
Qed.

(** C9, as the code has it. A cancellation by a truthy id fails, with
    the TypeError of [job.stop()] on undefined and without any change,
    exactly when [jobs] has no entry for the id.  An entry whose timer is
    not running any more (a one-shot that has fired) is no obstacle: the
    cancellation of a persisted job with such an entry returns normally,
    removes the entry and writes [done = false] and the message.  The id
    0 is falsy: the call is the cancellation by filter of the same
    arguments without id. *)
Theorem cancel_without_timer_fails a message i w :
  Filter.id a = Some i ->
  (truthyId i = true ->
   (jobs w !! i = None ->
    killTasks host a message w
    = (Throw (TypeError "Cannot read property 'stop' of undefined"), w))
   /\ (forall h, jobs w !! i = Some h ->
         fst (killTasks host a message w)
         <> Throw (TypeError "Cannot read property 'stop' of undefined")
         /\ jobs (snd (killTasks host a message w)) !! i = None)
   /\ (forall h timer n row,
         jobs w !! i = Some h -> heap w !! h = Some timer ->
         running timer = false -> i = Num n -> rows w !! n = Some row ->
         fst (killTasks host a message w) = Ok tt
         /\ Job.done <$> rows (snd (killTasks host a message w)) !! n
            = Some (Some false)
         /\ Job.error <$> rows (snd (killTasks host a message w)) !! n
            = Some (Some (default "Killed by Aido command" message))))
  /\ (truthyId i = false ->
      i = Num 0
      /\ killTasks host a message w
         = killTasks host
             {| Filter.id := None; Filter.user := Filter.user a;
                Filter.slash := Filter.slash a;
                Filter.action := Filter.action a;
                Filter.conversationWith := Filter.conversationWith a;
                Filter.conversationAs := Filter.conversationAs a |}
             message w).
Proof.
  intros Hid. split; [|intros Ht; split].
  2:{ destruct i as [n|]; [|discriminate]. simpl in Ht.
      apply negb_false_iff, Z.eqb_eq in Ht. by subst. }
  2:{ unfold killTasks. simpl. by rewrite Hid, Ht. }
  intros Ht. rewrite (killTasks_by_id _ _ i) by done.
  split; [|split].
  - intros Hjobs. by rewrite cancelCronJob_absent.
  - intros h Hjobs. rewrite (cancelCronJob_present _ _ h) by done. simpl.
    split; [|apply lookup_delete_eq].
    unfold cancelOutcome. destruct i as [n|]; [|discriminate].
    destruct (rows w !! n); discriminate.
  - intros h timer n row Hjobs Hheap Hrun -> Hrow.
    rewrite (cancelCronJob_present _ _ h) by done. simpl.
    by rewrite Hrow, lookup_alter_eq, Hrow.
Qed.

End Cancellation.

Section Recovery.

Variable host : Host.

Lemma recoverCronTime_spec cron w :
  fst (recoverCronTime host cron w)
  = Ok (spec_recoverTime (moment_parse host cron) (clock w (reads w))
          (clock w (S (reads w))) cron).
Proof.
  unfold recoverCronTime, spec_recoverTime, moment_now. run.
  destruct (moment_parse host cron) as [t|]; [|done]. simpl.
  destruct (Z.ltb_spec t (clock w (reads w))); case_decide; done || lia.
Qed.

(** Recovery only reads the clock. *)
Lemma recoverCronTime_frame cron w :
  rows (snd (recoverCronTime host cron w)) = rows w
  /\ heap (snd (recoverCronTime host cron w)) = heap w
  /\ jobs (snd (recoverCronTime host cron w)) = jobs w.
Proof.
  unfold recoverCronTime, moment_now. run.
  destruct (moment_parse host cron) as [t|]; [|done]. simpl.
  destruct (t <? clock w (reads w))%Z; done.
Qed.

(** A timer the library accepts ends up on the heap, running, and under
    the job's id in [jobs]. *)
Lemma setCronJob_registers pj c w :
  cronAccepts host c = true ->
  fst (setCronJob host pj c w) = Ok (Job.id pj)
  /\ jobs (snd (setCronJob host pj c w)) !! Job.id pj
     = Some (fresh (dom (heap w)))
  /\ heap (snd (setCronJob host pj c w)) !! fresh (dom (heap w))
     = Some {| cronTime := c;
               runOnce := match c with Instant _ => true | Pattern _ => false end;
               running := true; persistedJob := pj |}.
Proof.
  intros Hacc. unfold setCronJob, newCronJob, start. rewrite Hacc. run.
  rewrite lookup_insert_eq, lookup_alter_eq, lookup_insert_eq. done.
Qed.

Lemma elem_of_tableRows j w :
  j ∈ tableRows w <-> exists n row, rows w !! n = Some row /\ j = rowAt n row.
Proof.
  unfold tableRows. rewrite list_elem_of_fmap. split.
  - intros [[n row] [-> Hin]]. apply elem_of_map_to_list in Hin. eauto.
  - intros (n & row & Hrow & ->). exists (n, row). split; [done|].
    by apply elem_of_map_to_list.
Qed.

End Recovery.

Section Creation.

Variable host : Host.

Lemma jsonSchema_shape j :
  Job.jsonSchema j = true ->
  spec_shape (Job.cron j) (Job.user j) (Job.slash j) (Job.channel j)
    (Job.conversationAs j) = true.
Proof.
  unfold Job.jsonSchema, spec_shape, Job.lengthIn.
  rewrite !andb_true_iff. intros [[[[[[[[Hc Hu] Hs] Hlc] Hlu] _] _] Hlch] Hlas].
  destruct (Job.cron j), (Job.user j), (Job.slash j); try discriminate.
  repeat split; try done.
  - apply andb_true_iff in Hlu as [H1 H2]. apply Nat.leb_le in H1, H2.
    apply Nat.eqb_eq. lia.
  - destruct (Job.channel j); [|done].
    apply andb_true_iff in Hlch as [H1 H2]. apply Nat.leb_le in H1, H2.
    apply Nat.eqb_eq. lia.
Qed.

(** C10. [scheduleTask] returns an id only when the record has the
    shape of the claim; a record without it is rejected by the insertion
    with a ValidationError, the table, the timers and [jobs] being left
    as they were. *)
Theorem create_rejects_bad_shape cronTime user slash text action args o w :
  let shape := spec_shape (Some (cronColumn host cronTime)) user slash
                 (o_channel o) (o_conversationAs o) in
  (shape = false ->
     scheduleTask host cronTime user slash text action args (Some o) w
     = (Throw (ValidationError "schema"), w))
  /\ (forall i w',
        scheduleTask host cronTime user slash text action args (Some o) w
        = (Ok i, w') -> shape = true).
Proof.
  intros shape. unfold scheduleTask, insert, bind.
  match goal with |- context [Job.jsonSchema ?j] => set (record := j) end.
  pose proof (jsonSchema_shape record) as Hshape.
  change (spec_shape _ _ _ _ _) with shape in Hshape.
  destruct (Job.jsonSchema record).
  - split; [|auto]. intros Hfalse. rewrite Hshape in Hfalse; done.
  - split; [done|]. intros i w' Heq. discriminate.
Qed.

End Creation.

Section FilterCancellation.

Variable host : Host.

Lemma promiseAll_world {A B} (f : A -> M B) l w :
  snd (promiseAll f l w) = foldl (fun w' x => snd (f x w')) w l.
Proof.
  revert w. induction l as [|x l IH]; intros w; [done|].
  simpl. destruct (f x w) as [[b|e] w1]; simpl; apply IH.
Qed.








Lemma whereEq_spec f col :
  f <> Some "" ->
  whereEq f col = true <-> (forall v, f = Some v -> col = Some v).
Proof.
  intros Hne. unfold whereEq, truthy. destruct f as [v|]; [|naive_solver].
  destruct (String.eqb_spec v ""); [naive_solver|]. simpl.
  rewrite bool_decide_eq_true. naive_solver.
Qed.

(** The [where] clause agrees with the specification's selection. *)
Lemma killWhere_spec now a j :
  nonEmptyFields a ->
  Inj (=) (=) (JSON_stringify host) ->
  killWhere host now (Filter.user a) (Filter.slash a) (Filter.action a)
    (Filter.conversationWith a)
    (Some (default "bot" (Filter.conversationAs a))) j = true
  <-> spec_selected (collate_ge host) now a j.
Proof.
  intros (Hu & Hs & Hx & Has) Hinj. unfold killWhere, spec_selected.
  rewrite !andb_true_iff, !whereEq_spec; try done.
  - unfold isNullDone.
    assert (Hcw : match Filter.conversationWith a with
                  | Some l => bool_decide (JSON_stringify host <$>
                                Job.conversationWith j
                                = Some (JSON_stringify host l))
                  | None => true
                  end = true
                  <-> forall l, Filter.conversationWith a = Some l ->
                        Job.conversationWith j = Some l).
    { destruct (Filter.conversationWith a) as [l|]; [|naive_solver].
      rewrite bool_decide_eq_true. split.
      - intros Heq l' [= <-]. destruct (Job.conversationWith j) as [l0|];
          [|done]. simpl in Heq. injection Heq as Heq. by rewrite (Hinj _ _ Heq).
      - intros H. by rewrite (H l eq_refl). }
    rewrite Hcw. destruct (Job.done j), (Job.cron j); naive_solver.
  - destruct (Filter.conversationAs a) as [c|]; simpl; congruence.
Qed.

Lemma spec_selected_rowAt ge now a n row :
  spec_selected ge now a (rowAt n row) <-> spec_selected ge now a row.
Proof. reflexivity. Qed.

Lemma killTasks_by_filter a message w :
  noId a ->
  snd (killTasks host a message w)
  = cancelEach (default "Killed by Aido command" message)
      (filter (fun j => killWhere host (toISOString host (clock w (reads w)))
                          (Filter.user a) (Filter.slash a) (Filter.action a)
                          (Filter.conversationWith a)
                          (Some (default "bot" (Filter.conversationAs a))) j
                        = true) (tableRows w))
      {| rows := rows w; nextId := nextId w; heap := heap w; jobs := jobs w;
         queries := queries w
                    ++ [QWhereKill (toISOString host (clock w (reads w)))];
         clock := clock w; reads := S (reads w) |}.
Proof.
  intros Hno. unfold killTasks, noId in *.
  destruct (Filter.id a) as [i|]; [rewrite Hno|];
    unfold selectKill, moment_now; run; apply promiseAll_world.
Qed.





End FilterCancellation.

(** * The properties at sample inputs *)

Lemma success_patches_one_shot_only_witness :
  Job.done <$> rows (snd (onTick utilsOk job1 timer1 sampleWorld)) !! 1%Z
  = Some (Some true).
Proof.
  refine (proj2 (proj2 (proj1
    (success_patches_one_shot_only utilsOk job1 timer1 1 job1 sampleWorld
       _ _ _) _))); reflexivity.
Defined.

Lemma dispatch_error_is_caught_witness :
  rows (snd (onTick utilsDown job2 timer2 sampleWorld)) !! 2%Z
  = Some (Job.applyPatch (doneFalse "network down") job2).
Proof.
  refine (proj1 (proj1 (proj2 (proj2 (proj2
    (dispatch_error_is_caught utilsDown job2 timer2 (ThrownStr "network down")
       sampleWorld _)))) 2%Z job2 _ _)); reflexivity.
Defined.

Lemma cancel_by_id_stops_and_patches_witness :
  rows (snd (killTasks sampleHost (byId (Num 2)) (Some "Job was killed")
               sampleWorld)) !! 2%Z
  = Some (Job.applyPatch (doneFalse "Job was killed") job2).
Proof.
  refine (proj1 (proj2 (proj2 (proj2 (proj2
    (cancel_by_id_stops_and_patches sampleHost (byId (Num 2))
       (Some "Job was killed") 2 1%nat timer2 job2 sampleWorld _ _ _ _ _))))));
    reflexivity || (intros H; discriminate H).
Defined.

(** C5 as stated fails: the one-shot job 1 fires, its dispatch succeeds,
    the record reaches [done = true], and the job is still in [jobs]. *)
Lemma one_shot_completion_keeps_entry :
  runOnce timer1 = true
  /\ heap sampleWorld !! 0%nat = Some timer1
  /\ jobs sampleWorld !! Num 1 = Some 0%nat
  /\ fst (fire utilsOk 0 sampleWorld) = Ok tt
  /\ Job.done <$> rows (snd (fire utilsOk 0 sampleWorld)) !! 1%Z
     = Some (Some true)
  /\ jobs (snd (fire utilsOk 0 sampleWorld)) !! Num 1 <> None.
Proof. vm_compute. repeat split; try reflexivity. discriminate. Qed.

Lemma registry_entry_removed_by_cancel_only_witness :
  Job.done <$> rows (snd (fire utilsOk 0 sampleWorld)) !! 1%Z = Some (Some true)
  /\ jobs (snd (fire utilsOk 0 sampleWorld)) !! Num 1
     = jobs sampleWorld !! Num 1.
Proof.
  refine (proj2 (proj2
    (registry_entry_removed_by_cancel_only utilsOk 0%nat (Num 1) "" sampleWorld))
    timer1 1%Z job1 _ _ _ _ _ _); reflexivity.
Defined.


(** C7 on the code: cancelling the ephemeral job by the sentinel id stops
    and unregisters the timer, sends [findById] to the store, and throws
    on the undefined result. *)
Theorem cancel_ephemeral_queries_store :
  jobs ephemeralWorld !! NO_PERSISTANCE = Some 0%nat
  /\ running <$> heap ephemeralWorld !! 0%nat = Some true
  /\ queries ephemeralWorld = []
  /\ fst (killTasks sampleHost (byId NO_PERSISTANCE) None ephemeralWorld)
     = Throw (TypeError "Cannot read property '$query' of undefined")
  /\ queries (snd (killTasks sampleHost (byId NO_PERSISTANCE) None
                     ephemeralWorld))
     = [QFindById NO_PERSISTANCE]
  /\ jobs (snd (killTasks sampleHost (byId NO_PERSISTANCE) None
                  ephemeralWorld)) !! NO_PERSISTANCE = None
  /\ running <$> heap (snd (killTasks sampleHost (byId NO_PERSISTANCE) None
                              ephemeralWorld)) !! 0%nat = Some false.
Proof.
  assert (Hj : jobs ephemeralWorld !! NO_PERSISTANCE = Some 0%nat)
    by (vm_compute; reflexivity).
  rewrite (cancel_sentinel sampleHost _ None 0%nat) by done.
  vm_compute. repeat split; reflexivity.
Qed.

Lemma sampleHost_stringify_inj : Inj (=) (=) (JSON_stringify sampleHost).
Proof.
  intros l1 l2 H. simpl in H.
  by apply (inj pretty), (inj encode) in H.
Qed.

(** Under a byte-wise collation the text of a pattern that starts with
    ["0"] sorts below the ISO text of any instant of this century: the
    pending recurring job 2 is not returned by the filter query, while
    the one-shot job 1 is. *)
Example pattern_below_iso_instant :
  fst (selectKill sampleHost (toISOString sampleHost (sampleClock 0))
         (Some "U12345678") None None None (Some "bot") sampleWorld)
  = Ok [job1].
Proof. vm_compute. reflexivity. Qed.




(** C9 as stated fails: the one-shot job 1 has fired, the library has
    cleared [running] on its timer, so that no live timer is registered
    for the id; cancelling by the id nevertheless returns normally and
    turns the completed record into a failed one. *)
Lemma cancel_of_fired_one_shot_succeeds :
  jobs (snd (fire utilsOk 0 sampleWorld)) !! Num 1 = Some 0%nat
  /\ running <$> heap (snd (fire utilsOk 0 sampleWorld)) !! 0%nat = Some false
  /\ Job.done <$> rows (snd (fire utilsOk 0 sampleWorld)) !! 1%Z
     = Some (Some true)
  /\ fst (killTasks sampleHost (byId (Num 1)) None
            (snd (fire utilsOk 0 sampleWorld))) = Ok tt
  /\ Job.done <$> rows (snd (killTasks sampleHost (byId (Num 1)) None
                               (snd (fire utilsOk 0 sampleWorld)))) !! 1%Z
     = Some (Some false).
Proof. vm_compute. repeat split; reflexivity. Qed.

Lemma cancel_without_timer_fails_witness :
  killTasks sampleHost (byId (Num 7)) None sampleWorld
  = (Throw (TypeError "Cannot read property 'stop' of undefined"), sampleWorld).
Proof.
  apply (proj1 (proj1 (cancel_without_timer_fails sampleHost (byId (Num 7))
                         None (Num 7) sampleWorld eq_refl) eq_refl));
    reflexivity.
Defined.

Lemma create_rejects_bad_shape_witness :
  scheduleTask sampleHost (Pattern "0 */10 * * * *") (Some "U1") (Some "ping")
    None None None (Some (mkOptions None None None)) emptyWorld
  = (Throw (ValidationError "schema"), emptyWorld).
Proof.
  apply (create_rejects_bad_shape sampleHost (Pattern "0 */10 * * * *")
           (Some "U1") (Some "ping") None None None (mkOptions None None None)
           emptyWorld).
  reflexivity.
Defined.

(** * Further properties of the plugin *)

Section Scheduling.

Variable host : Host.

Lemma fresh_heap (w : World) : heap w !! fresh (dom (heap w)) = None.
Proof. apply not_elem_of_dom, is_fresh. Qed.

Lemma setCronJob_accepted pj c w :
  cronAccepts host c = true ->
  setCronJob host pj c w = (Ok (Job.id pj), registered pj c w).
Proof.
  intros Hacc. unfold setCronJob, newCronJob, start. rewrite Hacc. run.
  unfold registered. by rewrite alter_insert_eq.
Qed.

Lemma setCronJob_rejected pj c w :
  cronAccepts host c = false ->
  setCronJob host pj c w = (Throw (CronError "invalid cron time"), w).
Proof.
  intros Hacc. unfold setCronJob, newCronJob. rewrite Hacc. reflexivity.
Qed.

(** [scheduleTask] by cases on the validation and on the library. *)
Lemma scheduleTask_cases cronTime user slash text action args o w :
  scheduleTask host cronTime user slash text action args (Some o) w
  = let record := recordOf host cronTime user slash text action args o
                    (Num (nextId w)) in
    if Job.jsonSchema record then
      if cronAccepts host cronTime then
        (Ok (Num (nextId w)), registered record cronTime (inserted record w))
      else (Throw (CronError "invalid cron time"), inserted record w)
    else (Throw (ValidationError "schema"), w).
Proof.
  unfold scheduleTask, insert, bind. fold (recordOf host cronTime user slash
    text action args o (Num (nextId w))). cbv zeta.
  destruct (Job.jsonSchema _); [|done].
  fold (inserted (recordOf host cronTime user slash text action args o
                    (Num (nextId w))) w).
  destruct (cronAccepts host cronTime) eqn:Hacc.
  - by rewrite setCronJob_accepted.
  - by rewrite setCronJob_rejected.
Qed.

(** X1. A valid record with a time the library accepts: [scheduleTask]
    returns the next primary key, the row is stored pending under it, no
    row that was there is changed, and a running timer for the given time
    is registered under the id, on a reference that was free. *)
Theorem scheduleTask_persists_and_registers cronTime user slash text action
    args o w :
  let record := recordOf host cronTime user slash text action args o
                  (Num (nextId w)) in
  let r := scheduleTask host cronTime user slash text action args (Some o) w in
  Job.jsonSchema record = true ->
  cronAccepts host cronTime = true ->
  fst r = Ok (Num (nextId w))
  /\ rows (snd r) !! nextId w = Some record
  /\ Job.done record = None
  /\ nextId (snd r) = (nextId w + 1)%Z
  /\ jobs (snd r) !! Num (nextId w) = Some (fresh (dom (heap w)))
  /\ heap (snd r) !! fresh (dom (heap w)) = Some (timerOf cronTime record)
  /\ heap w !! fresh (dom (heap w)) = None
  /\ (forall n, n <> nextId w -> rows (snd r) !! n = rows w !! n)
  /\ (forall i, i <> Num (nextId w) -> jobs (snd r) !! i = jobs w !! i)
  /\ (forall h, h <> fresh (dom (heap w)) -> heap (snd r) !! h = heap w !! h).
Proof.
  intros record r Hschema Hacc. unfold r.
  rewrite scheduleTask_cases. cbv zeta. fold record. rewrite Hschema, Hacc.
  simpl. rewrite !lookup_insert_eq. repeat split; try done.
  - apply fresh_heap.
  - intros n Hn. by rewrite lookup_insert_ne.
  - intros i Hi. by rewrite lookup_insert_ne.
  - intros h Hh. by rewrite lookup_insert_ne.
Qed.

(** X2. A valid record with a time the library refuses (a malformed
    pattern): the call throws after the insertion, which is not undone.
    The row stays in the table, pending, with no timer and no entry in
    [jobs]. *)
Theorem scheduleTask_rejected_time_leaves_row cronTime user slash text action
    args o w :
  let record := recordOf host cronTime user slash text action args o
                  (Num (nextId w)) in
  let r := scheduleTask host cronTime user slash text action args (Some o) w in
  Job.jsonSchema record = true ->
  cronAccepts host cronTime = false ->
  fst r = Throw (CronError "invalid cron time")
  /\ rows (snd r) !! nextId w = Some record
  /\ Job.done record = None
  /\ heap (snd r) = heap w
  /\ jobs (snd r) = jobs w.
Proof.
  intros record r Hschema Hacc. unfold r.
  rewrite scheduleTask_cases. cbv zeta. fold record. rewrite Hschema, Hacc.
  simpl. by rewrite lookup_insert_eq.
Qed.

(** X3. Scheduling and then cancelling by the returned id: the
    cancellation succeeds, the new row is [done = false] with the
    message, the timer is stopped and the id is not in [jobs] any more.
    The store must not hand out 0 as a key: that id is falsy. *)
Theorem schedule_then_cancel cronTime user slash text action args o a message
    w :
  let record := recordOf host cronTime user slash text action args o
                  (Num (nextId w)) in
  let r := scheduleTask host cronTime user slash text action args (Some o) w in
  let r' := killTasks host a message (snd r) in
  Job.jsonSchema record = true ->
  cronAccepts host cronTime = true ->
  nextId w <> 0%Z ->
  Filter.id a = Some (Num (nextId w)) ->
  fst r' = Ok tt
  /\ rows (snd r') !! nextId w
     = Some (Job.applyPatch
               (doneFalse (default "Killed by Aido command" message)) record)
  /\ jobs (snd r') !! Num (nextId w) = None
  /\ heap (snd r') !! fresh (dom (heap w))
     = Some (stopped (timerOf cronTime record))
  /\ Job.done <$> rows (snd r') !! nextId w = Some (Some false)
  /\ Job.error <$> rows (snd r') !! nextId w
     = Some (Some (default "Killed by Aido command" message))
  /\ task <$> rows (snd r') !! nextId w = Some record
  /\ running <$> heap (snd r') !! fresh (dom (heap w)) = Some false
  /\ queries (snd r')
     = (queries w
        ++ [QInsert record; QFindById (Num (nextId w));
            QPatch (nextId w)
              {| Job.p_done := Some false;
                 Job.p_error :=
                   Some (default "Killed by Aido command" message) |}])%list.
Proof.
  intros record r r' Hschema Hacc Hnz Hid. unfold r', r.
  rewrite scheduleTask_cases. cbv zeta. fold record. rewrite Hschema, Hacc.
  rewrite (killTasks_by_id _ _ _ (Num (nextId w))); [|done|].
  - rewrite (cancelCronJob_present _ _ (fresh (dom (heap w))))
      by (simpl; apply lookup_insert_eq).
    simpl. rewrite !lookup_insert_eq, !lookup_alter_eq, !lookup_insert_eq,
      lookup_delete_eq. simpl. rewrite <- app_assoc. done.
  - simpl. by apply negb_true_iff, Z.eqb_neq.
Qed.

End Scheduling.

Section Invariant.

Variable host : Host.

Lemma task_applyPatch p j : task (Job.applyPatch p j) = task j.
Proof. reflexivity. Qed.

Lemma jsonSchema_applyPatch p j :
  Job.jsonSchema (Job.applyPatch p j) = Job.jsonSchema j.
Proof. reflexivity. Qed.

Lemma task_rowAt n row : Job.id row = Num n -> task (rowAt n row) = task row.
Proof. intros H. unfold task, rowAt. simpl. by rewrite H. Qed.

(** The invariant survives a patch of a row, the stop of a timer and the
    removal of an entry of [jobs], alone or together. *)
Lemma inv_change w w' :
  pluginInv w ->
  nextId w' = nextId w ->
  (rows w' = rows w \/ exists p n, rows w' = alter (Job.applyPatch p) n (rows w)) ->
  (heap w' = heap w \/ exists h, heap w' = alter stopped h (heap w)) ->
  (jobs w' = jobs w \/ exists i, jobs w' = delete i (jobs w)) ->
  pluginInv w'.
Proof.
  intros (Hs & Ht & Hr) Hnext Hrows Hheap Hjobs.
  assert (Hrow : forall n row', rows w' !! n = Some row' ->
            exists row, rows w !! n = Some row /\ task row' = task row
                        /\ Job.id row' = Job.id row
                        /\ Job.jsonSchema row' = Job.jsonSchema row).
  { intros n row' Hl. destruct Hrows as [Heq|(p & m & Heq)];
      rewrite Heq in Hl; [eauto|].
    rewrite lookup_alter in Hl. destruct (decide (m = n)) as [->|]; [|eauto].
    destruct (rows w !! n) as [row|]; [|done]. injection Hl as <-. eauto. }
  assert (Hrow' : forall n row, rows w !! n = Some row ->
            exists row', rows w' !! n = Some row' /\ task row' = task row).
  { intros n row Hl. destruct Hrows as [Heq|(p & m & Heq)];
      rewrite Heq; [eauto|].
    rewrite lookup_alter. destruct (decide (m = n)) as [->|]; [|eauto].
    rewrite Hl. simpl. eauto. }
  assert (Htim : forall h t', heap w' !! h = Some t' ->
            exists t, heap w !! h = Some t /\ persistedJob t' = persistedJob t).
  { intros h t' Hl. destruct Hheap as [Heq|(h0 & Heq)];
      rewrite Heq in Hl; [eauto|].
    rewrite lookup_alter in Hl. destruct (decide (h0 = h)) as [->|]; [|eauto].
    destruct (heap w !! h) as [t|]; [|done]. injection Hl as <-. eauto. }
  assert (Htim' : forall h t, heap w !! h = Some t ->
            exists t', heap w' !! h = Some t' /\ persistedJob t' = persistedJob t).
  { intros h t Hl. destruct Hheap as [Heq|(h0 & Heq)];
      rewrite Heq; [eauto|].
    rewrite lookup_alter. destruct (decide (h0 = h)) as [->|]; [|eauto].
    rewrite Hl. simpl. eauto. }
  assert (Hjob : forall i h, jobs w' !! i = Some h -> jobs w !! i = Some h).
  { intros i h Hl. destruct Hjobs as [Heq|(i0 & Heq)];
      rewrite Heq in Hl; [done|].
    by apply lookup_delete_Some in Hl as [_ ?]. }
  split; [|split].
  - intros n row' Hl. destruct (Hrow n row' Hl) as (row & Hw & _ & Hid & Hsch).
    destruct (Hs n row Hw) as (? & ? & ?). rewrite Hid, Hsch, Hnext. done.
  - intros h t' n Hl Hid. destruct (Htim h t' Hl) as (t & Hw & Hpj).
    rewrite Hpj in Hid |- *. destruct (Ht h t n Hw Hid) as (row & Hrw & Htask).
    destruct (Hrow' n row Hrw) as (row' & ? & ?). exists row'. split; congruence.
  - intros i h Hl. apply Hjob in Hl. destruct (Hr i h Hl) as (t & Hw & Hid).
    destruct (Htim' h t Hw) as (t' & ? & ?). exists t'. split; congruence.
Qed.

Lemma inv_inserted record w :
  pluginInv w ->
  Job.jsonSchema record = true ->
  Job.id record = Num (nextId w) ->
  pluginInv (inserted record w).
Proof.
  intros (Hs & Ht & Hr) Hsch Hid. split; [|split].
  - intros n row. simpl. rewrite lookup_insert.
    destruct (decide (nextId w = n)) as [<-|Hne].
    + intros [= <-]. repeat split; [done|lia|done].
    + intros Hl. destruct (Hs n row Hl) as (? & ? & ?). repeat split; [done|lia|done].
  - intros h t n Hl Hpj. destruct (Ht h t n Hl Hpj) as (row & Hrw & Htask).
    exists row. split; [|done]. simpl.
    destruct (Hs n row Hrw) as (_ & Hlt & _). rewrite lookup_insert_ne; [done|lia].
  - exact Hr.
Qed.

Lemma inv_registered pj c w :
  pluginInv w ->
  (forall n, Job.id pj = Num n ->
     exists row, rows w !! n = Some row /\ task row = task pj) ->
  pluginInv (registered pj c w).
Proof.
  intros (Hs & Ht & Hr) Hpj. split; [exact Hs|split].
  - intros h t n. simpl. rewrite lookup_insert.
    destruct (decide (fresh (dom (heap w)) = h)) as [<-|Hne].
    + intros [= <-]. simpl. apply Hpj.
    + apply Ht.
  - intros i h. simpl. rewrite lookup_insert.
    destruct (decide (Job.id pj = i)) as [<-|Hne].
    + intros [= <-]. exists (timerOf c pj). by rewrite lookup_insert_eq.
    + intros Hl. destruct (Hr i h Hl) as (t & Hh & Hid). exists t.
      split; [|done]. rewrite lookup_insert_ne; [done|].
      intros <-. by rewrite fresh_heap in Hh.
Qed.

Lemma inv_setCronJob pj c w :
  pluginInv w ->
  (forall n, Job.id pj = Num n ->
     exists row, rows w !! n = Some row /\ task row = task pj) ->
  pluginInv (snd (setCronJob host pj c w)).
Proof.
  intros Hinv Hpj. destruct (cronAccepts host c) eqn:Hacc.
  - rewrite setCronJob_accepted by done. by apply inv_registered.
  - by rewrite setCronJob_rejected.
Qed.

Lemma inv_scheduleTask cronTime user slash text action args options w :
  pluginInv w ->
  pluginInv (snd (scheduleTask host cronTime user slash text action args
                    options w)).
Proof.
  intros Hinv. destruct options as [o|]; [|done].
  rewrite scheduleTask_cases. cbv zeta.
  destruct (Job.jsonSchema _) eqn:Hsch; [|done].
  assert (Hins : pluginInv (inserted (recordOf host cronTime user slash text
                    action args o (Num (nextId w))) w))
    by (by apply inv_inserted).
  destruct (cronAccepts host cronTime); [|done].
  apply inv_registered; [done|]. intros n [= <-].
  eexists. split; [apply lookup_insert_eq|done].
Qed.

Lemma inv_cancelCronJob i message w :
  pluginInv w -> pluginInv (snd (cancelCronJob i message w)).
Proof.
  intros Hinv. destruct (jobs w !! i) as [h|] eqn:Hj.
  - rewrite (cancelCronJob_present _ _ h) by done.
    apply (inv_change w); simpl; eauto. destruct i; eauto.
  - by rewrite cancelCronJob_absent.
Qed.

Lemma inv_cancelEach message l w :
  pluginInv w -> pluginInv (cancelEach message l w).
Proof.
  revert w. induction l as [|x l IH]; intros w Hinv; [done|].
  apply IH. by apply inv_cancelCronJob.
Qed.

Lemma inv_killTasks a message w :
  pluginInv w -> pluginInv (snd (killTasks host a message w)).
Proof.
  intros Hinv. destruct (Filter.id a) as [i|] eqn:Hid.
  - destruct (truthyId i) eqn:Ht.
    + rewrite (killTasks_by_id _ _ _ i) by done. by apply inv_cancelCronJob.
    + rewrite killTasks_by_filter by (unfold noId; by rewrite Hid).
      apply inv_cancelEach. by apply (inv_change w); simpl; eauto.
  - rewrite killTasks_by_filter by (unfold noId; by rewrite Hid).
    apply inv_cancelEach. by apply (inv_change w); simpl; eauto.
Qed.

Lemma inv_onTick utils pj job w :
  pluginInv w -> pluginInv (snd (onTick utils pj job w)).
Proof.
  intros Hinv. destruct (Job.id pj) as [n|] eqn:Hid.
  - rewrite (onTick_persisted _ _ _ n) by done.
    destruct (dispatch utils pj) as [[]|e]; [destruct (runOnce job)|];
      rewrite ?(patch_persisted _ _ n) by done; try done;
      apply (inv_change w); simpl; eauto.
  - by rewrite onTick_ephemeral.
Qed.

Lemma inv_fire utils h w :
  pluginInv w -> pluginInv (snd (fire utils h w)).
Proof.
  intros Hinv. unfold fire, stop. run.
  destruct (heap w !! h) as [job|]; [|done].
  destruct (running job); [|done].
  destruct (runOnce job); simpl; apply inv_onTick; [|by destruct w].
  apply (inv_change w); simpl; eauto.
Qed.

Lemma forEach_world {A B} (f : A -> M B) l w :
  snd (forEach f l w) = foldl (fun w' x => snd (f x w')) w l.
Proof.
  revert w. induction l as [|x l IH]; intros w; [done|].
  simpl. unfold bind, detached. simpl. apply IH.
Qed.

Lemma forEach_ok {A B} (f : A -> M B) l w : fst (forEach f l w) = Ok tt.
Proof.
  revert w. induction l as [|x l IH]; intros w; [done|].
  simpl. unfold bind, detached. simpl. apply IH.
Qed.

(** What [recoverCronTime] changes: the count of clock readings. *)
Lemma recoverCronTime_world cron w :
  exists k,
    snd (recoverCronTime host cron w)
    = {| rows := rows w; nextId := nextId w; heap := heap w; jobs := jobs w;
         queries := queries w; clock := clock w; reads := (reads w + k)%nat |}.
Proof.
  unfold recoverCronTime, moment_now. run.
  destruct (moment_parse host cron) as [t|].
  - simpl. destruct (t <? clock w (reads w))%Z; simpl.
    + exists 2%nat. do 2 f_equal. lia.
    + exists 1%nat. do 2 f_equal. lia.
  - exists 0%nat. destruct w. simpl. by rewrite Nat.add_0_r.
Qed.

(** [requeue] as a registration in a world that differs from the given
    one in the clock readings only. *)
Lemma requeue_cases job w :
  match Job.cron job with
  | None => snd (requeue host job w) = w
  | Some cron =>
      exists k,
        let w1 := {| rows := rows w; nextId := nextId w; heap := heap w;
                     jobs := jobs w; queries := queries w; clock := clock w;
                     reads := (reads w + k)%nat |} in
        let time := spec_recoverTime (moment_parse host cron)
                      (clock w (reads w)) (clock w (S (reads w))) cron in
        snd (requeue host job w)
        = if cronAccepts host time then registered job time w1 else w1
  end.
Proof.
  unfold requeue. destruct (Job.cron job) as [cron|]; [|done].
  destruct (recoverCronTime_world cron w) as [k Hk]. exists k. cbv zeta.
  pose proof (recoverCronTime_spec host cron w) as Hspec. unfold bind.
  destruct (recoverCronTime host cron w) as [[c|e] w1]; simpl in *; [|done].
  injection Hspec as ->. subst w1.
  destruct (cronAccepts host _) eqn:Hacc.
  - by rewrite setCronJob_accepted.
  - by rewrite setCronJob_rejected.
Qed.

Lemma inv_requeue job w :
  pluginInv w ->
  (forall n, Job.id job = Num n ->
     exists row, rows w !! n = Some row /\ task row = task job) ->
  pluginInv (snd (requeue host job w)).
Proof.
  intros Hinv Hjob. pose proof (requeue_cases job w) as Hc.
  destruct (Job.cron job) as [cron|]; [|by rewrite Hc].
  destruct Hc as [k ->]. cbv zeta.
  assert (Hinv1 : pluginInv {| rows := rows w; nextId := nextId w;
                     heap := heap w; jobs := jobs w; queries := queries w;
                     clock := clock w; reads := (reads w + k)%nat |})
    by (apply (inv_change w); simpl; eauto).
  destruct (cronAccepts host _); [|done]. by apply inv_registered.
Qed.

Lemma requeue_rows job w : rows (snd (requeue host job w)) = rows w.
Proof.
  pose proof (requeue_cases job w) as Hc.
  destruct (Job.cron job) as [cron|]; [|by rewrite Hc].
  destruct Hc as [k ->]. cbv zeta. by destruct (cronAccepts host _).
Qed.

Lemma inv_requeue_each l w :
  pluginInv w ->
  (forall job n, job ∈ l -> Job.id job = Num n ->
     exists row, rows w !! n = Some row /\ task row = task job) ->
  pluginInv (foldl (fun w' x => snd (requeue host x w')) w l).
Proof.
  revert w. induction l as [|x l IH]; intros w Hinv Hl; [done|].
  simpl. apply IH.
  - apply inv_requeue; [done|]. intros n. apply Hl. by left.
  - intros job n Hin. rewrite requeue_rows. apply Hl. by right.
Qed.

Lemma inv_initPlugin w : pluginInv w -> pluginInv (snd (initPlugin host w)).
Proof.
  intros Hinv. unfold initPlugin, whereNullDone. run.
  rewrite forEach_world. apply inv_requeue_each.
  - apply (inv_change w); simpl; eauto.
  - intros job n Hin Hid. simpl. apply list_elem_of_filter in Hin as [_ Hin].
    apply elem_of_tableRows in Hin as (m & row & Hrow & ->).
    simpl in Hrow, Hid. injection Hid as ->. exists row. split; [done|].
    symmetry. apply task_rowAt. by apply Hinv.
Qed.

Lemma inv_call c w : pluginInv w -> pluginInv (call host c w).
Proof.
  intros Hinv. destruct c; simpl.
  - by apply inv_scheduleTask.
  - unfold Slash_scheduleTask.
    destruct (if truthy user then Some user else this_user this); [|done].
    by apply inv_scheduleTask.
  - unfold helpers_setCronJob, detached. simpl. by apply inv_setCronJob.
  - by apply inv_killTasks.
  - by apply inv_initPlugin.
  - by apply inv_fire.
Qed.

Lemma inv_empty nxt clk rds qs :
  pluginInv {| rows := ∅; nextId := nxt; heap := ∅; jobs := ∅; queries := qs;
               clock := clk; reads := rds |}.
Proof. split; [|split]; intros ?; intros; simplify_map_eq. Qed.

(** X4. Whatever calls and ticks reach the plugin, in whatever order:
    every row keeps its key as id, a key below the auto-increment counter
    (the next insertion overwrites nothing), and satisfies the schema;
    every timer of a persisted job carries the task of the row of its id;
    every entry of [jobs] refers to a timer of a job of that id.  A
    restart keeps all this. *)
Theorem plugin_invariant calls w :
  pluginInv w ->
  pluginInv (session host calls w)
  /\ pluginInv (restart (session host calls w))
  /\ rows (session host calls w) !! nextId (session host calls w) = None.
Proof.
  intros Hinv.
  assert (Hs : pluginInv (session host calls w)).
  { revert w Hinv. induction calls as [|c calls IH]; intros w Hinv; [done|].
    apply IH. by apply inv_call. }
  split; [done|]. split.
  - destruct Hs as (Hst & _ & _). split; [exact Hst|].
    split; intros ?; intros; simplify_map_eq.
  - destruct Hs as (Hst & _ & _).
    destruct (rows _ !! nextId _) as [row|] eqn:Hl; [|done].
    destruct (Hst _ _ Hl) as (_ & ? & _). lia.
Qed.

End Invariant.

Section Bootstrap.

Variable host : Host.

Lemma tableRows_ids w : Job.id <$> tableRows w = Num <$> (map_to_list (rows w)).*1.
Proof.
  unfold tableRows. rewrite <- !list_fmap_compose. by apply list_fmap_ext.
Qed.

Lemma Num_inj : Inj (=) (=) Num.
Proof. by intros n m [= ->]. Qed.

(** The rows a query returns have different ids. *)
Lemma NoDup_table_ids (P : Job.t -> Prop) `{!forall j, Decision (P j)} w :
  NoDup (Job.id <$> filter P (tableRows w)).
Proof.
  apply (sublist_NoDup _ (Job.id <$> tableRows w)).
  - rewrite tableRows_ids. apply (@NoDup_fmap_2 _ _ Num Num_inj).
    apply NoDup_fst_map_to_list.
  - apply fmap_sublist, sublist_filter.
Qed.

(** What one [requeue] leaves alone. *)
Lemma requeue_frame job w :
  rows (snd (requeue host job w)) = rows w
  /\ nextId (snd (requeue host job w)) = nextId w
  /\ queries (snd (requeue host job w)) = queries w
  /\ clock (snd (requeue host job w)) = clock w
  /\ (reads w <= reads (snd (requeue host job w)))%nat
  /\ (forall h t, heap w !! h = Some t ->
        heap (snd (requeue host job w)) !! h = Some t)
  /\ (forall i, i <> Job.id job ->
        jobs (snd (requeue host job w)) !! i = jobs w !! i).
Proof.
  pose proof (requeue_cases host job w) as Hc.
  destruct (Job.cron job) as [cron|]; [|rewrite Hc; repeat split; auto].
  destruct Hc as [k ->]. cbv zeta.
  destruct (cronAccepts host _); simpl; repeat split; auto; try lia.
  - intros h t Hh. rewrite lookup_insert_ne; [done|].
    intros <-. by rewrite fresh_heap in Hh.
  - intros i Hi. by rewrite lookup_insert_ne.
Qed.

Lemma requeue_registers job cron w :
  Job.cron job = Some cron ->
  cronAccepts host (recoveredAt host w (reads w) cron) = true ->
  jobs (snd (requeue host job w)) !! Job.id job = Some (fresh (dom (heap w)))
  /\ heap (snd (requeue host job w)) !! fresh (dom (heap w))
     = Some (timerOf (recoveredAt host w (reads w) cron) job).
Proof.
  intros Hcron Hacc. pose proof (requeue_cases host job w) as Hc.
  rewrite Hcron in Hc. destruct Hc as [k ->]. cbv zeta.
  unfold recoveredAt in Hacc. rewrite Hacc. simpl.
  by rewrite !lookup_insert_eq.
Qed.

Lemma requeue_each_frame l w :
  let w' := foldl (fun w' x => snd (requeue host x w')) w l in
  rows w' = rows w
  /\ nextId w' = nextId w
  /\ queries w' = queries w
  /\ clock w' = clock w
  /\ (reads w <= reads w')%nat
  /\ (forall h t, heap w !! h = Some t -> heap w' !! h = Some t)
  /\ (forall i, i ∉ Job.id <$> l -> jobs w' !! i = jobs w !! i).
Proof.
  revert w. induction l as [|x l IH]; intros w; [by repeat split|].
  simpl. destruct (IH (snd (requeue host x w))) as (H1 & H2 & H3 & H4 & H5 & H6 & H7).
  destruct (requeue_frame x w) as (G1 & G2 & G3 & G4 & G5 & G6 & G7).
  repeat split; try congruence; try lia.
  - intros h t Hh. by apply H6, G6.
  - intros i Hi. rewrite not_elem_of_cons in Hi. destruct Hi as [Hne Hi].
    by rewrite H7, G7.
Qed.

Lemma requeue_each_registers l w job cron :
  NoDup (Job.id <$> l) ->
  job ∈ l ->
  Job.cron job = Some cron ->
  (forall k, cronAccepts host (recoveredAt host w k cron) = true) ->
  let w' := foldl (fun w' x => snd (requeue host x w')) w l in
  exists h k,
    (reads w <= k)%nat
    /\ jobs w' !! Job.id job = Some h
    /\ heap w !! h = None
    /\ heap w' !! h = Some (timerOf (recoveredAt host w k cron) job).
Proof.
  revert w. induction l as [|x l IH]; intros w Hnd Hin Hcron Hacc.
  { by apply elem_of_nil in Hin. }
  simpl in Hnd. apply NoDup_cons in Hnd as [Hx Hnd]. simpl.
  destruct (requeue_frame x w) as (G1 & G2 & G3 & G4 & G5 & G6 & G7).
  apply elem_of_cons in Hin as [->|Hin].
  - destruct (requeue_registers x cron w Hcron (Hacc _)) as [Hj Hh].
    destruct (requeue_each_frame l (snd (requeue host x w)))
      as (_ & _ & _ & _ & _ & H6 & H7).
    exists (fresh (dom (heap w))), (reads w). split; [lia|].
    split; [by rewrite H7|]. split; [apply fresh_heap|]. by apply H6.
  - destruct (IH (snd (requeue host x w)) Hnd Hin Hcron) as (h & k & Hk & Hj & Hn & Hh).
    { intros k. unfold recoveredAt in *. rewrite G4. apply Hacc. }
    exists h, k. split; [lia|]. split; [done|]. split.
    + destruct (heap w !! h) as [t|] eqn:Hw; [|done].
      by rewrite (G6 _ _ Hw) in Hn.
    + unfold recoveredAt in *. by rewrite G4 in Hh.
Qed.

Lemma requeue_each_refused l w :
  (forall c, cronAccepts host c = false) ->
  heap (foldl (fun w' x => snd (requeue host x w')) w l) = heap w
  /\ jobs (foldl (fun w' x => snd (requeue host x w')) w l) = jobs w.
Proof.
  intros Href. revert w. induction l as [|x l IH]; intros w; [done|]. simpl.
  destruct (IH (snd (requeue host x w))) as [-> ->].
  pose proof (requeue_cases host x w) as Hc.
  destruct (Job.cron x); [|by rewrite Hc].
  destruct Hc as [k ->]. cbv zeta. by rewrite Href.
Qed.

Lemma initPlugin_world w :
  snd (initPlugin host w)
  = foldl (fun w' x => snd (requeue host x w'))
      {| rows := rows w; nextId := nextId w; heap := heap w; jobs := jobs w;
         queries := queries w ++ [QWhereNullDone]; clock := clock w;
         reads := reads w |}
      (filter (fun j => isNullDone j = true) (tableRows w)).
Proof. unfold initPlugin, whereNullDone. run. apply forEach_world. Qed.

Lemma initPlugin_rows w : rows (snd (initPlugin host w)) = rows w.
Proof.
  rewrite initPlugin_world.
  match goal with |- context [foldl _ ?w0 ?l] =>
    by destruct (requeue_each_frame l w0) as (-> & _)
  end.
Qed.

(** A row that is not pending is not in the list [initPlugin] goes
    through. *)
Lemma done_row_not_pending n row w :
  rows w !! n = Some row ->
  Job.done row <> None ->
  Num n ∉ Job.id <$> filter (fun j => isNullDone j = true) (tableRows w).
Proof.
  intros Hrow Hdone Hin. apply list_elem_of_fmap in Hin as (j & Hid & Hin).
  apply list_elem_of_filter in Hin as [Hnull Hin].
  apply elem_of_tableRows in Hin as (m & row' & Hrow' & ->).
  simpl in Hid. injection Hid as <-. rewrite Hrow in Hrow'.
  injection Hrow' as <-. unfold isNullDone in Hnull. simpl in Hnull.
  by destruct (Job.done row).
Qed.

Lemma initPlugin_skips_done n row w :
  rows w !! n = Some row ->
  Job.done row <> None ->
  jobs (snd (initPlugin host w)) !! Num n = jobs w !! Num n.
Proof.
  intros Hrow Hdone. rewrite initPlugin_world.
  match goal with |- context [foldl _ ?w0 ?l] =>
    destruct (requeue_each_frame l w0) as (_ & _ & _ & _ & _ & _ & H7)
  end.
  cbv zeta in H7. rewrite H7; [done|]. by apply (done_row_not_pending n row).
Qed.

Lemma initPlugin_registers_row n row cron w :
  rows w !! n = Some row ->
  Job.done row = None ->
  Job.cron row = Some cron ->
  (forall k, cronAccepts host (recoveredAt host w k cron) = true) ->
  exists h k,
    (reads w <= k)%nat
    /\ jobs (snd (initPlugin host w)) !! Num n = Some h
    /\ heap w !! h = None
    /\ heap (snd (initPlugin host w)) !! h
       = Some (timerOf (recoveredAt host w k cron) (rowAt n row)).
Proof.
  intros Hrow Hdone Hcron Hacc. rewrite initPlugin_world.
  match goal with |- context [foldl _ ?w0 ?l] =>
    destruct (requeue_each_registers l w0 (rowAt n row) cron)
      as (h & k & Hk & Hj & Hn & Hh)
  end; try done.
  - apply NoDup_table_ids.
  - apply list_elem_of_filter. split.
    + unfold isNullDone. simpl. by rewrite Hdone.
    + apply elem_of_tableRows. eauto.
  - exists h, k. done.
Qed.

(** X5. [initPlugin] always returns normally, also when the library
    refuses a recovered time: the rejection of an un-awaited [setCronJob]
    is lost.  It sends one query, writes no row, and leaves the timers and
    the entries of ephemeral jobs and of rows that are not pending as they
    were; with a library that refuses everything nothing is registered at
    all. *)
Theorem initPlugin_never_fails w :
  fst (initPlugin host w) = Ok tt
  /\ rows (snd (initPlugin host w)) = rows w
  /\ nextId (snd (initPlugin host w)) = nextId w
  /\ queries (snd (initPlugin host w)) = (queries w ++ [QWhereNullDone])%list
  /\ (forall h t, heap w !! h = Some t ->
        heap (snd (initPlugin host w)) !! h = Some t)
  /\ jobs (snd (initPlugin host w)) !! NO_PERSISTANCE = jobs w !! NO_PERSISTANCE
  /\ (forall n row, rows w !! n = Some row -> Job.done row <> None ->
        jobs (snd (initPlugin host w)) !! Num n = jobs w !! Num n)
  /\ ((forall c, cronAccepts host c = false) ->
        heap (snd (initPlugin host w)) = heap w
        /\ jobs (snd (initPlugin host w)) = jobs w).
Proof.
  split.
  { unfold initPlugin, whereNullDone. run. apply forEach_ok. }
  rewrite initPlugin_world.
  match goal with |- context [foldl _ ?w0 ?l] =>
    destruct (requeue_each_frame l w0) as (H1 & H2 & H3 & H4 & H5 & H6 & H7);
    set (pending := l) in *; set (start := w0) in *
  end.
  cbv zeta in *. repeat split; try done.
  - apply H7. intros Hin. apply list_elem_of_fmap in Hin as (j & Hid & Hin).
    apply list_elem_of_filter in Hin as [_ Hin].
    apply elem_of_tableRows in Hin as (m & row & _ & ->). discriminate.
  - intros n row Hrow Hdone. apply H7.
    by apply (done_row_not_pending n row).
  - by destruct (requeue_each_refused pending start) as [-> _].
  - by destruct (requeue_each_refused pending start) as [_ ->].
Qed.

(** X6. [initPlugin] registers every pending row whose recovered time the
    library accepts: under the row's id there is a new running timer, on
    a reference that was free, carrying the row as the job to dispatch
    and the time recovery computes from the row's [cron] text at some
    later reading of the clock. *)
Theorem initPlugin_registers_pending n row cron w :
  rows w !! n = Some row ->
  Job.done row = None ->
  Job.cron row = Some cron ->
  (forall k, cronAccepts host (recoveredAt host w k cron) = true) ->
  exists h k timer,
    (reads w <= k)%nat
    /\ jobs (snd (initPlugin host w)) !! Num n = Some h
    /\ heap w !! h = None
    /\ heap (snd (initPlugin host w)) !! h = Some timer
    /\ persistedJob timer = rowAt n row
    /\ cronTime timer = recoveredAt host w k cron
    /\ running timer = true
    /\ (runOnce timer = true <-> is_Some (moment_parse host cron))
    /\ rows (snd (initPlugin host w)) !! n = Some row.
Proof.
  intros Hrow Hdone Hcron Hacc.
  destruct (initPlugin_registers_row n row cron w Hrow Hdone Hcron Hacc)
    as (h & k & Hk & Hj & Hn & Hh).
  exists h, k, (timerOf (recoveredAt host w k cron) (rowAt n row)).
  rewrite initPlugin_rows. repeat split; try done.
  - simpl. unfold recoveredAt, spec_recoverTime.
    destruct (moment_parse host cron); [eauto|discriminate].
  - simpl. unfold recoveredAt, spec_recoverTime.
    destruct (moment_parse host cron) as [t|]; [|by intros [? ?]].
    by case_decide.
Qed.

End Bootstrap.

Section Lifecycle.

Variable host : Host.
Variable utils : Utils.

Lemma rowAt_id n row : Job.id row = Num n -> rowAt n row = row.
Proof. intros H. destruct row. simpl in H. by subst. Qed.

(** X7. A job that was scheduled and is still pending comes back after a
    restart as it was: when the [cron] column parses back to the time (a
    pattern is no valid date, the ISO text of an instant is that
    instant), the instant is not before any reading of the clock and the
    library accepts the time, [initPlugin] registers under the same id a
    timer with the same time and the same job as [scheduleTask] did. *)
Theorem schedule_restart_recover cronTime user slash text action args o w :
  let record := recordOf host cronTime user slash text action args o
                  (Num (nextId w)) in
  let w1 := snd (scheduleTask host cronTime user slash text action args
                   (Some o) w) in
  let w2 := snd (initPlugin host (restart w1)) in
  Job.jsonSchema record = true ->
  cronAccepts host cronTime = true ->
  moment_parse host (cronColumn host cronTime)
  = match cronTime with Pattern _ => None | Instant t => Some t end ->
  (forall k, match cronTime with
             | Pattern _ => True
             | Instant t => (clock w k <= t)%Z
             end) ->
  heap w1 !! fresh (dom (heap w)) = Some (timerOf cronTime record)
  /\ exists h, jobs w2 !! Num (nextId w) = Some h
               /\ heap w2 !! h = Some (timerOf cronTime record).
Proof.
  intros record w1 w2 Hsch Hacc Hparse Hclock.
  assert (Hw1 : w1 = registered record cronTime (inserted record w)).
  { unfold w1. rewrite scheduleTask_cases. cbv zeta. fold record.
    by rewrite Hsch, Hacc. }
  split; [rewrite Hw1; simpl; apply lookup_insert_eq|].
  assert (Htime : forall k,
            recoveredAt host (restart w1) k (cronColumn host cronTime)
            = cronTime).
  { intros k. unfold recoveredAt, spec_recoverTime. rewrite Hparse.
    destruct cronTime as [s|t]; [done|]. specialize (Hclock k).
    rewrite Hw1. simpl. case_decide; [lia|done]. }
  destruct (initPlugin_registers_row host (nextId w) record
              (cronColumn host cronTime) (restart w1))
    as (h & k & _ & Hj & _ & Hh).
  - rewrite Hw1. simpl. apply lookup_insert_eq.
  - done.
  - done.
  - intros k. by rewrite Htime.
  - exists h. split; [done|]. fold w2 in Hh. rewrite Hh, Htime.
    by rewrite rowAt_id.
Qed.

(** X8. The tick of a one-shot persisted job always records an outcome:
    the row ends with [done = true] exactly when the dispatch succeeded,
    with [done = false] and the stringified error otherwise; it is never
    left pending. *)
Theorem one_shot_outcome_recorded pj job n row w :
  Job.id pj = Num n ->
  rows w !! n = Some row ->
  runOnce job = true ->
  exists row',
    rows (snd (onTick utils pj job w)) !! n = Some row'
    /\ task row' = task row
    /\ Job.done row' <> None
    /\ (Job.done row' = Some true <-> dispatch utils pj = Ok tt)
    /\ (forall e, dispatch utils pj = Throw e ->
          Job.done row' = Some false /\ Job.error row' = Some (toString e)).
Proof.
  intros Hid Hrow Honce. rewrite (onTick_persisted _ _ _ n), Honce by done.
  destruct (dispatch utils pj) as [[]|e]; rewrite (patch_persisted _ _ n) by done;
    simpl; rewrite lookup_alter_eq, Hrow; simpl; eexists; (split; [done|]);
    simpl; repeat split; try done.
  congruence.
Qed.

(** X9. A recurring job whose dispatch failed once is marked
    [done = false] for good: later successful ticks leave the row as it
    is, the timer keeps running in this process, and after a restart
    [initPlugin] does not register the job again. *)
Theorem failed_recurring_not_recovered pj job n row e w :
  Job.id pj = Num n ->
  rows w !! n = Some row ->
  runOnce job = false ->
  dispatch utils pj = Throw e ->
  let w1 := snd (onTick utils pj job w) in
  Job.done <$> rows w1 !! n = Some (Some false)
  /\ heap w1 = heap w
  /\ jobs w1 = jobs w
  /\ (forall utils', dispatch utils' pj = Ok tt ->
        onTick utils' pj job w1 = (Ok tt, w1))
  /\ jobs (snd (initPlugin host (restart w1))) !! Num n = None.
Proof.
  intros Hid Hrow Honce Herr w1.
  assert (Hw1 : rows w1 !! n
                = Some (Job.applyPatch (doneFalse (toString e)) row)).
  { unfold w1. rewrite (onTick_persisted _ _ _ n), Herr, (patch_persisted _ _ n)
      by done. simpl. by rewrite lookup_alter_eq, Hrow. }
  destruct (onTick_timers utils pj job w) as [Hheap Hjobs].
  split; [by rewrite Hw1|]. split; [done|]. split; [done|]. split.
  - intros utils' Hok. by rewrite (onTick_persisted _ _ _ n), Hok, Honce.
  - rewrite (initPlugin_skips_done host n _ (restart w1) Hw1); [done|].
    simpl. discriminate.
Qed.

(** X10. Cancelling by id a one-shot job that has already completed
    succeeds, because the job is still in [jobs]: the row that said
    [done = true] is overwritten with [done = false] and the message. *)
Theorem cancel_after_completion_overwrites pj job a message n h row w :
  Job.id pj = Num n ->
  n <> 0%Z ->
  rows w !! n = Some row ->
  jobs w !! Num n = Some h ->
  runOnce job = true ->
  dispatch utils pj = Ok tt ->
  Filter.id a = Some (Num n) ->
  let w1 := snd (onTick utils pj job w) in
  let r := killTasks host a message w1 in
  Job.done <$> rows w1 !! n = Some (Some true)
  /\ fst r = Ok tt
  /\ Job.done <$> rows (snd r) !! n = Some (Some false)
  /\ Job.error <$> rows (snd r) !! n
     = Some (Some (default "Killed by Aido command" message)).
Proof.
  intros Hid Hn Hrow Hjobs Honce Hok Ha w1 r.
  assert (Hw1 : rows w1 !! n = Some (Job.applyPatch doneTrue row)).
  { unfold w1. rewrite (onTick_persisted _ _ _ n), Hok, Honce,
      (patch_persisted _ _ n) by done. simpl. by rewrite lookup_alter_eq, Hrow. }
  assert (Hj1 : jobs w1 !! Num n = Some h).
  { unfold w1. by rewrite (proj2 (onTick_timers utils pj job w)). }
  split; [by rewrite Hw1|]. unfold r.
  rewrite (killTasks_by_id _ _ _ (Num n)), (cancelCronJob_present _ _ h);
    [|done|done|simpl; by apply negb_true_iff, Z.eqb_neq].
  simpl. rewrite Hw1, lookup_alter_eq, Hw1. done.
Qed.

(** X11. Cancelling by id is not idempotent: after a cancellation that
    found the timer, the same call throws a TypeError and changes
    nothing, so the row keeps the message of the first call. *)
Theorem cancel_twice_fails a message message' i h w :
  Filter.id a = Some i ->
  truthyId i = true ->
  jobs w !! i = Some h ->
  let w1 := snd (killTasks host a message w) in
  killTasks host a message' w1
  = (Throw (TypeError "Cannot read property 'stop' of undefined"), w1).
Proof.
  intros Ha Ht Hj w1.
  rewrite (killTasks_by_id _ _ _ i), cancelCronJob_absent; [done| |done|done].
  unfold w1. rewrite (killTasks_by_id _ _ _ i) by done.
  apply cancelCronJob_jobs.
Qed.

(** X12. In a world that satisfies the invariant, cancelling by a
    non-zero numeric id that is in [jobs] always runs to its end: the row
    of the id exists and is patched, the timer exists, belongs to a job
    of that id and is stopped. *)
Theorem cancel_registered_completes a message n h w :
  pluginInv w ->
  Filter.id a = Some (Num n) ->
  n <> 0%Z ->
  jobs w !! Num n = Some h ->
  let r := killTasks host a message w in
  fst r = Ok tt
  /\ exists row timer,
       rows w !! n = Some row
       /\ heap w !! h = Some timer
       /\ Job.id (persistedJob timer) = Num n
       /\ task row = task (persistedJob timer)
       /\ rows (snd r) !! n
          = Some (Job.applyPatch
                    (doneFalse (default "Killed by Aido command" message)) row)
       /\ heap (snd r) !! h = Some (stopped timer)
       /\ jobs (snd r) !! Num n = None
       /\ Job.done <$> rows (snd r) !! n = Some (Some false)
       /\ Job.error <$> rows (snd r) !! n
          = Some (Some (default "Killed by Aido command" message))
       /\ task <$> rows (snd r) !! n = Some (task row)
       /\ running <$> heap (snd r) !! h = Some false
       /\ persistedJob <$> heap (snd r) !! h = Some (persistedJob timer)
       /\ queries (snd r)
          = (queries w
             ++ [QFindById (Num n);
                 QPatch n
                   {| Job.p_done := Some false;
                      Job.p_error :=
                        Some (default "Killed by Aido command" message) |}])%list.
Proof.
  intros (Hs & Ht & Hr) Ha Hn Hj r.
  destruct (Hr _ _ Hj) as (timer & Hh & Hid).
  destruct (Ht _ _ _ Hh Hid) as (row & Hrow & Htask).
  unfold r.
  rewrite (killTasks_by_id _ _ _ (Num n)), (cancelCronJob_present _ _ h);
    [|done|done|simpl; by apply negb_true_iff, Z.eqb_neq].
  simpl. rewrite Hrow. split; [done|]. exists row, timer.
  rewrite !lookup_alter_eq, Hrow, Hh, lookup_delete_eq. done.
Qed.

End Lifecycle.

Section Ephemeral.

Variable host : Host.

Lemma helpers_setCronJob_world cronTime user slash text action args channel
    conversationWith conversationAs w :
  helpers_setCronJob host cronTime user slash text action args channel
    conversationWith conversationAs w
  = (Ok tt,
     snd (setCronJob host
            {| Job.id := NO_PERSISTANCE; Job.cron := None; Job.user := user;
               Job.slash := slash; Job.text := text; Job.action := action;
               Job.args := args; Job.channel := channel;
               Job.conversationWith := conversationWith;
               Job.conversationAs := conversationAs;
               Job.done := None; Job.error := None |} cronTime w)).
Proof. reflexivity. Qed.

(** A tick of a timer whose job has the sentinel id changes nothing but
    the timer's [running] flag. *)
Lemma fire_ephemeral utils h w :
  (forall t, heap w !! h = Some t -> Job.id (persistedJob t) = NO_PERSISTANCE) ->
  rows (snd (fire utils h w)) = rows w
  /\ queries (snd (fire utils h w)) = queries w
  /\ jobs (snd (fire utils h w)) = jobs w
  /\ (forall t, heap (snd (fire utils h w)) !! h = Some t ->
        Job.id (persistedJob t) = NO_PERSISTANCE).
Proof.
  intros Hs. unfold fire, stop. run.
  destruct (heap w !! h) as [job|] eqn:Hh;
    [|simpl; repeat split; try done; intros t; by rewrite Hh].
  specialize (Hs job eq_refl).
  destruct (running job);
    [|simpl; repeat split; try done; intros t; rewrite Hh; by intros [= <-]].
  destruct (runOnce job); simpl; rewrite onTick_ephemeral by done; simpl.
  - repeat split; try done. intros t. rewrite lookup_alter_eq, Hh.
    by intros [= <-].
  - repeat split; try done. intros t. rewrite Hh. by intros [= <-].
Qed.

Lemma fireTimes_ephemeral utils h k w :
  (forall t, heap w !! h = Some t -> Job.id (persistedJob t) = NO_PERSISTANCE) ->
  rows (snd (fireTimes utils h k w)) = rows w
  /\ queries (snd (fireTimes utils h k w)) = queries w
  /\ jobs (snd (fireTimes utils h k w)) = jobs w.
Proof.
  revert w. induction k as [|k IH]; intros w Hs; [done|].
  simpl. unfold bind.
  destruct (fire_ephemeral utils h w Hs) as (H1 & H2 & H3 & H4).
  destruct (fire utils h w) as [[[]|e] w1] eqn:Hf; simpl in *.
  - destruct (IH w1 H4) as (G1 & G2 & G3). repeat split; congruence.
  - done.
Qed.

Lemma cancel_without_timer_fails_sentinel a message w :
  Filter.id a = Some NO_PERSISTANCE ->
  jobs w !! NO_PERSISTANCE = None ->
  killTasks host a message w
  = (Throw (TypeError "Cannot read property 'stop' of undefined"), w).
Proof.
  intros Ha Hj.
  by rewrite (killTasks_by_id _ _ _ NO_PERSISTANCE), cancelCronJob_absent.
Qed.

(** X13. A job set through the no-persistence helper never reaches the
    store: the helper returns normally whether or not the library accepts
    the time, sends no query and writes no row, and however often the
    timer it has created ticks, whatever the dispatch does, the table and
    the list of queries stay as they were. *)
Theorem ephemeral_never_reaches_store cronTime user slash text action args
    channel conversationWith conversationAs utils k w :
  let r := helpers_setCronJob host cronTime user slash text action args
             channel conversationWith conversationAs w in
  let w' := snd (fireTimes utils (fresh (dom (heap w))) k (snd r)) in
  fst r = Ok tt
  /\ rows (snd r) = rows w
  /\ queries (snd r) = queries w
  /\ (forall i, i <> NO_PERSISTANCE -> jobs (snd r) !! i = jobs w !! i)
  /\ rows w' = rows w
  /\ queries w' = queries w.
Proof.
  intros r w'. unfold w', r. rewrite helpers_setCronJob_world. simpl.
  set (pj := {| Job.id := NO_PERSISTANCE |}).
  assert (Hcase :
    snd (setCronJob host pj cronTime w) = registered pj cronTime w
    \/ snd (setCronJob host pj cronTime w) = w).
  { destruct (cronAccepts host cronTime) eqn:Hacc.
    - left. by rewrite setCronJob_accepted.
    - right. by rewrite setCronJob_rejected. }
  assert (Hs : forall t,
    heap (snd (setCronJob host pj cronTime w)) !! fresh (dom (heap w)) = Some t ->
    Job.id (persistedJob t) = NO_PERSISTANCE).
  { intros t. destruct Hcase as [-> | ->].
    - simpl. rewrite lookup_insert_eq. by intros [= <-].
    - by rewrite fresh_heap. }
  destruct (fireTimes_ephemeral utils _ k _ Hs) as (H1 & H2 & _).
  rewrite H1, H2. destruct Hcase as [-> | ->]; simpl; repeat split; try done.
  intros i Hi. by rewrite lookup_insert_ne.
Qed.

(** X14. All ephemeral jobs share the key ['NO_PERSISTANCE'] of [jobs]:
    setting a second one replaces the entry of the first, whose timer
    keeps running.  Cancelling by the sentinel id then stops the second
    timer only; the first is still running and a further cancellation
    finds no entry. *)
Theorem second_ephemeral_job_hides_first c1 u1 s1 t1 a1 g1 ch1 cw1 ca1
    c2 u2 s2 t2 a2 g2 ch2 cw2 ca2 a message w :
  cronAccepts host c1 = true ->
  cronAccepts host c2 = true ->
  Filter.id a = Some NO_PERSISTANCE ->
  let w1 := snd (helpers_setCronJob host c1 u1 s1 t1 a1 g1 ch1 cw1 ca1 w) in
  let w2 := snd (helpers_setCronJob host c2 u2 s2 t2 a2 g2 ch2 cw2 ca2 w1) in
  let w3 := snd (killTasks host a message w2) in
  let h1 := fresh (dom (heap w)) in
  let h2 := fresh (dom (heap w1)) in
  h1 <> h2
  /\ jobs w1 !! NO_PERSISTANCE = Some h1
  /\ jobs w2 !! NO_PERSISTANCE = Some h2
  /\ running <$> heap w2 !! h1 = Some true
  /\ running <$> heap w3 !! h2 = Some false
  /\ running <$> heap w3 !! h1 = Some true
  /\ jobs w3 !! NO_PERSISTANCE = None
  /\ killTasks host a message w3
     = (Throw (TypeError "Cannot read property 'stop' of undefined"), w3).
Proof.
  intros Hc1 Hc2 Ha w1 w2 w3 h1 h2.
  assert (Hw1 : heap w1 !! h1 = Some (timerOf c1 (persistedJob (timerOf c1
                  {| Job.id := NO_PERSISTANCE; Job.cron := None; Job.user := u1;
                     Job.slash := s1; Job.text := t1; Job.action := a1;
                     Job.args := g1; Job.channel := ch1;
                     Job.conversationWith := cw1; Job.conversationAs := ca1;
                     Job.done := None; Job.error := None |})))
                /\ jobs w1 !! NO_PERSISTANCE = Some h1).
  { unfold w1. rewrite helpers_setCronJob_world. simpl.
    rewrite setCronJob_accepted by done. simpl.
    by rewrite !lookup_insert_eq. }
  destruct Hw1 as [Hh1 Hj1].
  assert (Hne : h1 <> h2).
  { intros Heq. pose proof (fresh_heap w1) as Hf. fold h2 in Hf.
    rewrite <- Heq, Hh1 in Hf. done. }
  assert (Hw2 : heap w2 = <[h2 := timerOf c2
                  {| Job.id := NO_PERSISTANCE; Job.cron := None; Job.user := u2;
                     Job.slash := s2; Job.text := t2; Job.action := a2;
                     Job.args := g2; Job.channel := ch2;
                     Job.conversationWith := cw2; Job.conversationAs := ca2;
                     Job.done := None; Job.error := None |}]> (heap w1)
                /\ jobs w2 = <[NO_PERSISTANCE := h2]> (jobs w1)).
  { unfold w2. rewrite helpers_setCronJob_world. simpl.
    by rewrite setCronJob_accepted. }
  destruct Hw2 as [Hh2 Hj2].
  assert (Hj2' : jobs w2 !! NO_PERSISTANCE = Some h2)
    by (by rewrite Hj2, lookup_insert_eq).
  assert (Hw3 : heap w3 = alter stopped h2 (heap w2)
                /\ jobs w3 = delete NO_PERSISTANCE (jobs w2)).
  { unfold w3. by rewrite (cancel_sentinel _ _ _ h2). }
  destruct Hw3 as [Hh3 Hj3].
  repeat split; try done.
  - by rewrite Hh2, lookup_insert_ne, Hh1.
  - by rewrite Hh3, lookup_alter_eq, Hh2, lookup_insert_eq.
  - by rewrite Hh3, lookup_alter_ne, Hh2, lookup_insert_ne, Hh1.
  - by rewrite Hj3, lookup_delete_eq.
  - apply cancel_without_timer_fails_sentinel; [done|].
    by rewrite Hj3, lookup_delete_eq.
Qed.

End Ephemeral.

Section FilterOutcome.

Variable host : Host.

Lemma killTasks_filter_call a message w :
  noId a ->
  killTasks host a message w
  = promiseAll
      (fun job => cancelCronJob (Job.id job)
                    (default "Killed by Aido command" message))
      (filter (fun j => killWhere host (toISOString host (clock w (reads w)))
                          (Filter.user a) (Filter.slash a) (Filter.action a)
                          (Filter.conversationWith a)
                          (Some (default "bot" (Filter.conversationAs a))) j
                        = true) (tableRows w))
      {| rows := rows w; nextId := nextId w; heap := heap w; jobs := jobs w;
         queries := queries w
                    ++ [QWhereKill (toISOString host (clock w (reads w)))];
         clock := clock w; reads := S (reads w) |}.
Proof.
  intros Hno. unfold killTasks, noId in *.
  destruct (Filter.id a) as [i|]; [rewrite Hno|];
    unfold selectKill, moment_now; run; reflexivity.
Qed.

Lemma promiseAll_cancel_ok message l w :
  NoDup (Job.id <$> l) ->
  (forall j, j ∈ l ->
     exists n, Job.id j = Num n /\ is_Some (rows w !! n)
               /\ is_Some (jobs w !! Num n)) ->
  fst (promiseAll (fun job => cancelCronJob (Job.id job) message) l w) = Ok tt.
Proof.
  revert w. induction l as [|x l IH]; intros w Hnd Hall; [done|].
  simpl in Hnd. apply NoDup_cons in Hnd as [Hx Hnd].
  destruct (Hall x) as (n & Hid & [row Hrow] & [h Hj]); [by left|].
  simpl. rewrite Hid, (cancelCronJob_present _ _ h) by done.
  simpl. rewrite Hrow. apply IH; [done|].
  intros j Hin. destruct (Hall j) as (m & Hidj & Hr & Hjj); [by right|].
  exists m. split; [done|].
  assert (m <> n).
  { intros ->. apply Hx. apply list_elem_of_fmap. exists j. by rewrite Hid. }
  simpl. rewrite lookup_alter_ne, lookup_delete_ne by congruence. done.
Qed.

Lemma promiseAll_cancel_fail message l w :
  (forall j, j ∈ l -> exists n, Job.id j = Num n /\ is_Some (rows w !! n)) ->
  (exists j, j ∈ l /\ jobs w !! Job.id j = None) ->
  fst (promiseAll (fun job => cancelCronJob (Job.id job) message) l w)
  = Throw (TypeError "Cannot read property 'stop' of undefined").
Proof.
  revert w. induction l as [|x l IH]; intros w Hall (j & Hin & Hnone).
  { by apply elem_of_nil in Hin. }
  simpl. destruct (jobs w !! Job.id x) as [h|] eqn:Hj.
  - destruct (Hall x) as (n & Hid & [row Hrow]); [by left|].
    rewrite (cancelCronJob_present _ _ h) by done.
    rewrite Hid. simpl. rewrite Hrow. apply IH.
    + intros j' Hin'. destruct (Hall j') as (m & Hidj & Hr); [by right|].
      exists m. split; [done|]. simpl. rewrite lookup_alter.
      destruct (decide (n = m)); [|done]. by apply fmap_is_Some.
    + exists j. split.
      * apply elem_of_cons in Hin as [->|]; [congruence|done].
      * simpl. rewrite <- Hid. apply lookup_delete_None. by right.
  - by rewrite cancelCronJob_absent.
Qed.

(** The rows the filter query returns. *)
Lemma selected_rows a w j :
  nonEmptyFields a ->
  Inj (=) (=) (JSON_stringify host) ->
  j ∈ filter (fun j => killWhere host (toISOString host (clock w (reads w)))
                         (Filter.user a) (Filter.slash a) (Filter.action a)
                         (Filter.conversationWith a)
                         (Some (default "bot" (Filter.conversationAs a))) j
                       = true) (tableRows w)
  <-> exists n row,
        rows w !! n = Some row
        /\ spec_selected (collate_ge host)
             (toISOString host (clock w (reads w))) a row
        /\ j = rowAt n row.
Proof.
  intros Hwf Hinj. rewrite list_elem_of_filter, elem_of_tableRows. split.
  - intros [Hsel (n & row & Hrow & ->)]. exists n, row.
    split; [done|]. split; [|done].
    apply (spec_selected_rowAt _ _ _ n), killWhere_spec; done.
  - intros (n & row & Hrow & Hsel & ->). split; [|eauto].
    apply killWhere_spec; done.
Qed.

Lemma killTasks_filter_ok a message w :
  noId a ->
  nonEmptyFields a ->
  Inj (=) (=) (JSON_stringify host) ->
  (forall n row, rows w !! n = Some row ->
     spec_selected (collate_ge host) (toISOString host (clock w (reads w))) a
       row ->
     is_Some (jobs w !! Num n)) ->
  fst (killTasks host a message w) = Ok tt.
Proof.
  intros Hno Hwf Hinj Hreg. rewrite killTasks_filter_call by done.
  apply promiseAll_cancel_ok.
  - apply NoDup_table_ids.
  - intros j Hin. apply selected_rows in Hin as (n & row & Hrow & Hsel & ->);
      try done.
    exists n. simpl. rewrite Hrow. eauto.
Qed.

(** X15. The outcome of a cancellation by filter: it returns normally
    when every selected row has an entry in [jobs] (in particular when no
    row is selected), and rejects with the TypeError of the missing timer
    as soon as one selected row has none. *)
Theorem filter_cancellation_outcome a message w :
  noId a ->
  nonEmptyFields a ->
  Inj (=) (=) (JSON_stringify host) ->
  let selected := spec_selected (collate_ge host)
                    (toISOString host (clock w (reads w))) a in
  ((forall n row, rows w !! n = Some row -> selected row ->
      is_Some (jobs w !! Num n)) ->
   fst (killTasks host a message w) = Ok tt)
  /\ (forall n row, rows w !! n = Some row -> selected row ->
        jobs w !! Num n = None ->
        fst (killTasks host a message w)
        = Throw (TypeError "Cannot read property 'stop' of undefined")).
Proof.
  intros Hno Hwf Hinj selected. split.
  - intros Hreg. by apply killTasks_filter_ok.
  - intros n row Hrow Hsel Hnone. rewrite killTasks_filter_call by done.
    apply promiseAll_cancel_fail.
    + intros j Hin.
      apply selected_rows in Hin as (m & row' & Hrow' & _ & ->); try done.
      exists m. simpl. rewrite Hrow'. eauto.
    + exists (rowAt n row). split; [|done]. apply selected_rows; eauto.
Qed.

End FilterOutcome.

Section RecoveredTime.

Variable host : Host.

(** X16. The instant recovery hands to the timer is never before the
    last clock reading recovery has taken: an elapsed instant is replaced
    by the reading taken after the comparison plus one second, an instant
    that is kept was found not to be before the reading. *)
Theorem recovered_instant_not_elapsed cron t w :
  fst (recoverCronTime host cron w) = Ok (Instant t) ->
  (reads w < reads (snd (recoverCronTime host cron w)))%nat
  /\ (clock w (reads (snd (recoverCronTime host cron w)) - 1) <= t)%Z
  /\ exists t0, moment_parse host cron = Some t0
                /\ (t = t0 \/ (t0 < clock w (reads w))%Z).
Proof.
  unfold recoverCronTime, moment_now. run.
  destruct (moment_parse host cron) as [t0|]; [|discriminate]. simpl.
  destruct (Z.ltb_spec t0 (clock w (reads w))); simpl; intros [= <-].
  - split; [lia|]. split; [|eauto].
    rewrite ?Nat.sub_0_r. lia.
  - split; [lia|]. split; [|eauto]. by rewrite ?Nat.sub_0_r.
Qed.

End RecoveredTime.

Section SlashMethods.

Variable host : Host.

Lemma orElse_falsy a b : truthy a = false -> orElse a b = b.
Proof. intros H. unfold orElse. by rewrite H. Qed.

(** X17. In the method of the class [Slash] a falsy [action] argument
    (none, or the empty string) is replaced by the action of the current
    request.  So a task scheduled while an action is being handled is, if
    the call succeeds, stored and registered with that action, and its
    ticks dispatch through [emitAction], never through [emitSlash]. *)
Theorem slash_schedule_inherits_action this cronTime user slash text action
    args options i w' w :
  truthy action = false ->
  truthy (this_action this) = true ->
  Slash_scheduleTask host this cronTime user slash text action args options w
  = (Ok i, w') ->
  exists n h timer row,
    i = Num n
    /\ rows w' !! n = Some row
    /\ Job.action row = this_action this
    /\ jobs w' !! i = Some h
    /\ heap w' !! h = Some timer
    /\ persistedJob timer = row
    /\ forall utils,
         dispatch utils row
         = emitAction utils (Job.user row) (Job.slash row) (this_action this)
             (Job.args row)
             {| r_channel := Job.channel row;
                r_conversationWith := Job.conversationWith row;
                r_conversationAs := Job.conversationAs row |}.
Proof.
  intros Hfalsy Htruthy. unfold Slash_scheduleTask.
  destruct (if truthy user then Some user else this_user this) as [user'|];
    [|discriminate].
  rewrite scheduleTask_cases. cbv zeta. rewrite (orElse_falsy action) by done.
  set (record := recordOf _ _ _ _ _ _ _ _ _).
  destruct (Job.jsonSchema record); [|discriminate].
  destruct (cronAccepts host cronTime); [|discriminate].
  intros [= <- <-]. exists (nextId w), (fresh (dom (heap w))), (timerOf cronTime record), record.
  simpl. rewrite !lookup_insert_eq. repeat split; try done.
  intros utils. unfold dispatch. simpl. by rewrite Htruthy.
Qed.

End SlashMethods.

Section PendingRows.

Variable host : Host.

Lemma por_ext w w' :
  rows w' = rows w -> jobs w' = jobs w -> clock w' = clock w ->
  pendingOrRefused host w -> pendingOrRefused host w'.
Proof. intros Hr Hj Hc Hp n row. rewrite Hr, Hj, Hc. apply Hp. Qed.

Lemma por_registered pj c w :
  pendingOrRefused host w -> pendingOrRefused host (registered pj c w).
Proof.
  intros Hp n row Hl Hd. simpl in *.
  destruct (Hp n row Hl Hd) as [Hj|Href]; [left|by right].
  apply lookup_insert_is_Some'. by right.
Qed.

Lemma por_setCronJob pj c w :
  pendingOrRefused host w ->
  pendingOrRefused host (snd (setCronJob host pj c w)).
Proof.
  intros Hp. destruct (cronAccepts host c) eqn:Hacc.
  - rewrite setCronJob_accepted by done. by apply por_registered.
  - by rewrite setCronJob_rejected.
Qed.

Lemma por_scheduleTask cronTime user slash text action args options w :
  pendingOrRefused host w ->
  pendingOrRefused host
    (snd (scheduleTask host cronTime user slash text action args options w)).
Proof.
  intros Hp. destruct options as [o|]; [|done].
  rewrite scheduleTask_cases. cbv zeta.
  destruct (Job.jsonSchema _); [|done].
  destruct (cronAccepts host cronTime) eqn:Hacc.
  - intros n row Hl Hd. simpl in *.
    rewrite lookup_insert in Hl. destruct (decide (nextId w = n)) as [<-|Hne].
    + left. apply lookup_insert_is_Some'. by left.
    + destruct (Hp n row Hl Hd) as [Hj|Href]; [left|by right].
      apply lookup_insert_is_Some'. by right.
  - intros n row Hl Hd. simpl in *.
    rewrite lookup_insert in Hl. destruct (decide (nextId w = n)) as [<-|Hne].
    + right. injection Hl as <-. exists cronTime. split; [done|]. by left.
    + by apply (Hp n row).
Qed.

Lemma por_cancelCronJob i message w :
  pendingOrRefused host w ->
  pendingOrRefused host (snd (cancelCronJob i message w)).
Proof.
  intros Hp. destruct (jobs w !! i) as [h|] eqn:Hj.
  - rewrite (cancelCronJob_present _ _ h) by done.
    intros n row Hl Hd. simpl in *. destruct i as [m|].
    + rewrite lookup_alter in Hl. destruct (decide (m = n)) as [->|Hne].
      * destruct (rows w !! n); [|done]. injection Hl as <-. done.
      * rewrite lookup_delete_ne by congruence. by apply (Hp n row).
    + rewrite lookup_delete_ne by done. by apply (Hp n row).
  - by rewrite cancelCronJob_absent.
Qed.

Lemma por_cancelEach message l w :
  pendingOrRefused host w -> pendingOrRefused host (cancelEach message l w).
Proof.
  revert w. induction l as [|x l IH]; intros w Hp; [done|].
  apply IH. by apply por_cancelCronJob.
Qed.

Lemma por_killTasks a message w :
  pendingOrRefused host w ->
  pendingOrRefused host (snd (killTasks host a message w)).
Proof.
  intros Hp. destruct (Filter.id a) as [i|] eqn:Hid.
  - destruct (truthyId i) eqn:Ht.
    + rewrite (killTasks_by_id _ _ _ i) by done. by apply por_cancelCronJob.
    + rewrite killTasks_by_filter by (unfold noId; by rewrite Hid).
      apply por_cancelEach. by apply (por_ext w).
  - rewrite killTasks_by_filter by (unfold noId; by rewrite Hid).
    apply por_cancelEach. by apply (por_ext w).
Qed.

Lemma por_patch pj p w :
  Job.p_done p <> None ->
  pendingOrRefused host w -> pendingOrRefused host (snd (patch pj p w)).
Proof.
  intros Hdone Hp. destruct (Job.id pj) as [m|] eqn:Hid.
  - rewrite (patch_persisted _ _ m) by done. intros n row Hl Hd. simpl in *.
    rewrite lookup_alter in Hl. destruct (decide (m = n)) as [->|Hne].
    + destruct (rows w !! n); [|done]. injection Hl as <-.
      simpl in Hd. by destruct (Job.p_done p).
    + by apply (Hp n row).
  - unfold patch. by rewrite Hid.
Qed.

Lemma por_onTick utils pj job w :
  pendingOrRefused host w ->
  pendingOrRefused host (snd (onTick utils pj job w)).
Proof.
  intros Hp. destruct (Job.id pj) as [n|] eqn:Hid.
  - rewrite (onTick_persisted _ _ _ n) by done.
    destruct (dispatch utils pj) as [[]|e]; [destruct (runOnce job)|];
      try done; by apply por_patch.
  - by rewrite onTick_ephemeral.
Qed.

Lemma por_fire utils h w :
  pendingOrRefused host w -> pendingOrRefused host (snd (fire utils h w)).
Proof.
  intros Hp. unfold fire, stop. run.
  destruct (heap w !! h) as [job|]; [|done].
  destruct (running job); [|done].
  destruct (runOnce job); simpl; apply por_onTick; by apply (por_ext w).
Qed.

Lemma por_requeue job w :
  pendingOrRefused host w -> pendingOrRefused host (snd (requeue host job w)).
Proof.
  intros Hp. pose proof (requeue_cases host job w) as Hc.
  destruct (Job.cron job) as [cron|]; [|by rewrite Hc].
  destruct Hc as [k ->]. cbv zeta.
  destruct (cronAccepts host _); [apply por_registered|];
    by apply (por_ext w).
Qed.

Lemma por_requeue_each l w :
  pendingOrRefused host w ->
  pendingOrRefused host (foldl (fun w' x => snd (requeue host x w')) w l).
Proof.
  revert w. induction l as [|x l IH]; intros w Hp; [done|].
  simpl. apply IH. by apply por_requeue.
Qed.

Lemma por_initPlugin w :
  pendingOrRefused host w -> pendingOrRefused host (snd (initPlugin host w)).
Proof.
  intros Hp. rewrite initPlugin_world. apply por_requeue_each.
  by apply (por_ext w).
Qed.

Lemma por_call c w :
  pendingOrRefused host w -> pendingOrRefused host (call host c w).
Proof.
  intros Hp. destruct c; simpl.
  - by apply por_scheduleTask.
  - unfold Slash_scheduleTask.
    destruct (if truthy user then Some user else this_user this); [|done].
    by apply por_scheduleTask.
  - unfold helpers_setCronJob, detached. simpl. by apply por_setCronJob.
  - by apply por_killTasks.
  - by apply por_initPlugin.
  - by apply por_fire.
Qed.

Lemma por_session calls w :
  pendingOrRefused host w -> pendingOrRefused host (session host calls w).
Proof.
  revert w. induction calls as [|c calls IH]; intros w Hp; [done|].
  apply IH. by apply por_call.
Qed.

(** Each job [initPlugin] goes through ends with an entry in [jobs],
    unless the library refused the time recovered for it. *)
Lemma requeue_each_or_refused l w job cron :
  NoDup (Job.id <$> l) ->
  job ∈ l ->
  Job.cron job = Some cron ->
  is_Some (jobs (foldl (fun w' x => snd (requeue host x w')) w l)
             !! Job.id job)
  \/ exists k, cronAccepts host (recoveredAt host w k cron) = false.
Proof.
  revert w. induction l as [|x l IH]; intros w Hnd Hin Hcron.
  { by apply elem_of_nil in Hin. }
  simpl in Hnd. apply NoDup_cons in Hnd as [Hx Hnd]. simpl.
  destruct (requeue_frame host x w) as (G1 & G2 & G3 & G4 & G5 & G6 & G7).
  apply elem_of_cons in Hin as [->|Hin].
  - destruct (cronAccepts host (recoveredAt host w (reads w) cron)) eqn:Hacc.
    + left. destruct (requeue_registers host x cron w Hcron Hacc) as [Hj Hh].
      destruct (requeue_each_frame host l (snd (requeue host x w)))
        as (_ & _ & _ & _ & _ & _ & H7).
      cbv zeta in H7. rewrite H7 by done. by rewrite Hj.
    + right. eauto.
  - destruct (IH (snd (requeue host x w)) Hnd Hin Hcron) as [?|[k Hk]];
      [by left|].
    right. exists k. unfold recoveredAt in *. by rewrite G4 in Hk.
Qed.

Lemma initPlugin_clock w : clock (snd (initPlugin host w)) = clock w.
Proof.
  rewrite initPlugin_world.
  match goal with |- context [foldl _ ?w0 ?l] =>
    by destruct (requeue_each_frame host l w0) as (_ & _ & _ & -> & _)
  end.
Qed.

Lemma por_bootstrap w :
  storeInv w -> pendingOrRefused host (snd (initPlugin host w)).
Proof.
  intros Hs n row Hl Hd. rewrite initPlugin_clock.
  rewrite initPlugin_rows in Hl. destruct (Hs n row Hl) as (_ & _ & Hsch).
  destruct (Job.cron row) as [cron|] eqn:Hcron.
  - rewrite initPlugin_world.
    match goal with |- context [foldl _ ?w0 ?l] =>
      destruct (requeue_each_or_refused l w0 (rowAt n row) cron)
        as [Hj|[k Hk]]
    end; try done.
    + apply NoDup_table_ids.
    + apply list_elem_of_filter. split.
      * unfold isNullDone. simpl. by rewrite Hd.
      * apply elem_of_tableRows. eauto.
    + by left.
    + right. exists (recoveredAt host w k cron). split; [done|].
      right. by exists cron, k.
  - unfold Job.jsonSchema in Hsch. by rewrite Hcron in Hsch.
Qed.

(** X18. Once a process has run [initPlugin] on a table that satisfies
    the store invariant, every pending row has an entry in [jobs] unless
    the cron library refused its time (the time [scheduleTask] was given,
    or the time recovery computed from the stored text), and this stays
    so through any calls and ticks.  A cancellation by filter then either
    returns normally or has selected a pending row without entry, whose
    time the library refused.  With a library that refuses no time every
    pending row has an entry and the cancellation by filter never
    rejects. *)
Theorem pending_rows_stay_registered calls a message w :
  storeInv w ->
  let w1 := session host calls (snd (initPlugin host (restart w))) in
  pendingOrRefused host w1
  /\ (noId a ->
      fst (killTasks host a message w1) = Ok tt
      \/ exists n row,
           rows w1 !! n = Some row
           /\ Job.done row = None
           /\ jobs w1 !! Num n = None
           /\ refusedRow host (clock w1) row
           /\ killWhere host (toISOString host (clock w1 (reads w1)))
                (Filter.user a) (Filter.slash a) (Filter.action a)
                (Filter.conversationWith a)
                (Some (default "bot" (Filter.conversationAs a)))
                (rowAt n row) = true
           /\ fst (killTasks host a message w1)
              = Throw (TypeError "Cannot read property 'stop' of undefined"))
  /\ ((forall c, cronAccepts host c = true) ->
      pendingInv w1
      /\ (noId a -> fst (killTasks host a message w1) = Ok tt)).
Proof.
  intros Hs w1.
  assert (Hp : pendingOrRefused host w1).
  { apply por_session, por_bootstrap, Hs. }
  assert (Hkill : noId a ->
            fst (killTasks host a message w1) = Ok tt
            \/ exists n row,
                 rows w1 !! n = Some row
                 /\ Job.done row = None
                 /\ jobs w1 !! Num n = None
                 /\ refusedRow host (clock w1) row
                 /\ killWhere host (toISOString host (clock w1 (reads w1)))
                      (Filter.user a) (Filter.slash a) (Filter.action a)
                      (Filter.conversationWith a)
                      (Some (default "bot" (Filter.conversationAs a)))
                      (rowAt n row) = true
                 /\ fst (killTasks host a message w1)
                    = Throw (TypeError
                               "Cannot read property 'stop' of undefined")).
  { intros Hno. rewrite killTasks_filter_call by done.
    match goal with |- context [promiseAll _ ?l ?w0] =>
      set (sel := l); set (wq := w0)
    end.
    assert (Hsel : forall j, j ∈ sel ->
              exists n row, rows w1 !! n = Some row /\ j = rowAt n row
                            /\ Job.done row = None).
    { intros j Hin. apply list_elem_of_filter in Hin as [Hw Hin].
      apply elem_of_tableRows in Hin as (n & row & Hrow & ->).
      exists n, row. split; [done|]. split; [done|].
      unfold killWhere, isNullDone in Hw. simpl in Hw.
      by destruct (Job.done row). }
    destruct (decide (Forall (fun j => is_Some (jobs w1 !! Job.id j)) sel))
      as [Hall|Hex].
    - left. apply promiseAll_cancel_ok; [apply NoDup_table_ids|].
      intros j Hin. rewrite Forall_forall in Hall.
      pose proof (Hall j Hin) as Hj.
      destruct (Hsel j Hin) as (n & row & Hrow & -> & _).
      exists n. simpl. rewrite Hrow. eauto.
    - right. apply not_Forall_Exists in Hex; [|apply _].
      apply Exists_exists in Hex as (j & Hin & Hnone).
      destruct (Hsel j Hin) as (n & row & Hrow & -> & Hd).
      simpl in Hnone. apply eq_None_not_Some in Hnone.
      exists n, row. split; [done|]. split; [done|]. split; [done|].
      split.
      { destruct (Hp n row Hrow Hd) as [Hj|Href]; [|done].
        rewrite Hnone in Hj. by destruct Hj. }
      split.
      { by apply list_elem_of_filter in Hin as [Hw _]. }
      apply promiseAll_cancel_fail.
      + intros j Hj. destruct (Hsel j Hj) as (m & row' & Hrow' & -> & _).
        exists m. simpl. rewrite Hrow'. eauto.
      + exists (rowAt n row). done. }
  split; [done|]. split; [done|].
  intros Hacc.
  assert (Hpi : pendingInv w1).
  { intros n row Hrow Hd. destruct (Hp n row Hrow Hd) as [Hj|Href]; [done|].
    destruct Href as (c & Hc & _). by rewrite Hacc in Hc. }
  split; [done|]. intros Hno.
  destruct (Hkill Hno) as [Hok|(n & row & Hrow & Hd & Hnone & _)]; [done|].
  destruct (Hpi n row Hrow Hd) as [h Hh]. congruence.
Qed.

End PendingRows.

(** * The further properties at sample inputs *)

Lemma scheduleTask_persists_and_registers_witness :
  fst (scheduleTask sampleHost (Instant 1893456000000) (Some "U12345678")
         (Some "ping") (Some "hi") None None (Some noOptions) emptyWorld)
  = Ok (Num 1).
Proof.
  exact (proj1 (scheduleTask_persists_and_registers sampleHost
                  (Instant 1893456000000) (Some "U12345678") (Some "ping")
                  (Some "hi") None None noOptions emptyWorld
                  eq_refl eq_refl)).
Defined.

Lemma scheduleTask_rejected_time_leaves_row_witness :
  fst (scheduleTask refusingHost (Pattern "every ten minutes")
         (Some "U12345678") (Some "ping") None None None (Some noOptions)
         emptyWorld)
  = Throw (CronError "invalid cron time")
  /\ jobs (snd (scheduleTask refusingHost (Pattern "every ten minutes")
                  (Some "U12345678") (Some "ping") None None None
                  (Some noOptions) emptyWorld)) = jobs emptyWorld.
Proof.
  destruct (scheduleTask_rejected_time_leaves_row refusingHost
              (Pattern "every ten minutes") (Some "U12345678") (Some "ping")
              None None None noOptions emptyWorld eq_refl eq_refl)
    as (H1 & _ & _ & _ & H5).
  split; [exact H1|exact H5].
Defined.

Lemma schedule_then_cancel_witness :
  fst (killTasks sampleHost (byId (Num 1)) (Some "Job was killed")
         scheduledWorld) = Ok tt.
Proof.
  refine (proj1 (schedule_then_cancel sampleHost (Instant 1893456000000)
                   (Some "U12345678") (Some "ping") (Some "hi") None None
                   noOptions (byId (Num 1)) (Some "Job was killed") emptyWorld
                   eq_refl eq_refl _ eq_refl)).
  discriminate.
Defined.

Lemma plugin_invariant_witness :
  pluginInv (session sampleHost sampleCalls emptyWorld).
Proof.
  exact (proj1 (plugin_invariant sampleHost sampleCalls emptyWorld
                  (inv_empty _ _ _ _))).
Defined.

Lemma initPlugin_never_fails_witness :
  heap (snd (initPlugin refusingHost (restart sampleWorld))) = ∅
  /\ jobs (snd (initPlugin refusingHost (restart sampleWorld))) = ∅.
Proof.
  refine (proj2 (proj2 (proj2 (proj2 (proj2 (proj2 (proj2
    (initPlugin_never_fails refusingHost (restart sampleWorld)))))))) _).
  reflexivity.
Defined.

Lemma initPlugin_registers_pending_witness :
  exists h, jobs (snd (initPlugin sampleHost (restart sampleWorld))) !! Num 2
            = Some h.
Proof.
  destruct (initPlugin_registers_pending sampleHost 2%Z job2 "0 */10 * * * *"
              (restart sampleWorld) eq_refl eq_refl eq_refl
              (fun k => eq_refl))
    as (h & k & timer & _ & Hj & _).
  exists h. exact Hj.
Defined.

Lemma schedule_restart_recover_witness :
  exists h,
    jobs (snd (initPlugin sampleHost
                 (restart (snd (scheduleTask sampleHost (Instant 1893456000000)
                                  (Some "U12345678") (Some "ping") (Some "hi")
                                  None None (Some noOptions) frozenWorld)))))
      !! Num 1 = Some h.
Proof.
  destruct (schedule_restart_recover sampleHost (Instant 1893456000000)
              (Some "U12345678") (Some "ping") (Some "hi") None None noOptions
              frozenWorld eq_refl eq_refl eq_refl) as (_ & h & Hj & _).
  - intros k. simpl. lia.
  - exists h. exact Hj.
Defined.

Lemma one_shot_outcome_recorded_witness :
  exists row',
    rows (snd (onTick utilsDown job1 timer1 sampleWorld)) !! 1%Z = Some row'
    /\ Job.done row' <> None.
Proof.
  destruct (one_shot_outcome_recorded utilsDown job1 timer1 1%Z job1
              sampleWorld eq_refl eq_refl eq_refl)
    as (row' & H1 & _ & H2 & _).
  exists row'. split; [exact H1|exact H2].
Defined.

Lemma failed_recurring_not_recovered_witness :
  jobs (snd (initPlugin sampleHost
               (restart (snd (onTick utilsDown job2 timer2 sampleWorld)))))
    !! Num 2 = None.
Proof.
  exact (proj2 (proj2 (proj2 (proj2
    (failed_recurring_not_recovered sampleHost utilsDown job2 timer2 2%Z job2
       (ThrownStr "network down") sampleWorld eq_refl eq_refl eq_refl
       eq_refl))))).
Defined.

Lemma cancel_after_completion_overwrites_witness :
  Job.done <$> rows (snd (killTasks sampleHost (byId (Num 1)) None
                            (snd (onTick utilsOk job1 timer1 sampleWorld))))
                 !! 1%Z = Some (Some false).
Proof.
  refine (proj1 (proj2 (proj2
    (cancel_after_completion_overwrites sampleHost utilsOk job1 timer1
       (byId (Num 1)) None 1%Z 0%nat job1 sampleWorld eq_refl _ eq_refl
       eq_refl eq_refl eq_refl eq_refl)))).
  discriminate.
Defined.

Lemma cancel_twice_fails_witness :
  fst (killTasks sampleHost (byId (Num 2)) None
         (snd (killTasks sampleHost (byId (Num 2)) (Some "first") sampleWorld)))
  = Throw (TypeError "Cannot read property 'stop' of undefined").
Proof.
  rewrite (cancel_twice_fails sampleHost (byId (Num 2)) (Some "first") None
             (Num 2) 1%nat sampleWorld eq_refl eq_refl eq_refl).
  reflexivity.
Defined.

Lemma scheduledWorld_inv : pluginInv scheduledWorld.
Proof. apply inv_scheduleTask, inv_empty. Qed.

Lemma cancel_registered_completes_witness :
  fst (killTasks sampleHost (byId (Num 1)) None scheduledWorld) = Ok tt.
Proof.
  refine (proj1 (cancel_registered_completes sampleHost (byId (Num 1)) None
                   1%Z 0%nat scheduledWorld scheduledWorld_inv eq_refl _ _)).
  - discriminate.
  - vm_compute. reflexivity.
Defined.

Lemma second_ephemeral_job_hides_first_witness :
  running <$> heap (snd (killTasks sampleHost (byId NO_PERSISTANCE) None
    (snd (helpers_setCronJob sampleHost (Pattern "0 0 * * * *")
            (Some "U12345678") (Some "pong") None None None None None None
            ephemeralWorld)))) !! fresh (dom (heap emptyWorld)) = Some true.
Proof.
  exact (proj1 (proj2 (proj2 (proj2 (proj2 (proj2
    (second_ephemeral_job_hides_first sampleHost
       (Pattern "0 */10 * * * *") (Some "U12345678") (Some "ping") None None
       None None None None
       (Pattern "0 0 * * * *") (Some "U12345678") (Some "pong") None None
       None None None None
       (byId NO_PERSISTANCE) None emptyWorld eq_refl eq_refl eq_refl))))))).
Defined.

Lemma byUser_nonEmpty : nonEmptyFields (byUser "U12345678").
Proof. repeat split; discriminate. Qed.

Lemma filter_cancellation_outcome_witness :
  fst (killTasks sampleHost (byUser "U12345678") None (restart sampleWorld))
  = Throw (TypeError "Cannot read property 'stop' of undefined").
Proof.
  refine (proj2 (filter_cancellation_outcome sampleHost (byUser "U12345678")
                   None (restart sampleWorld) I byUser_nonEmpty
                   sampleHost_stringify_inj) 1%Z job1 eq_refl _ eq_refl).
  repeat split; try done.
  exists "2030-01-01T00:00:00.000Z". split; reflexivity.
Defined.

Lemma recovered_instant_not_elapsed_witness :
  (clock emptyWorld
     (reads (snd (recoverCronTime sampleHost "2020-01-01T00:00:00.000Z"
                    emptyWorld)) - 1)
   <= sampleClock 1 + 1000)%Z.
Proof.
  exact (proj1 (proj2 (recovered_instant_not_elapsed sampleHost
                         "2020-01-01T00:00:00.000Z" (sampleClock 1 + 1000)
                         emptyWorld eq_refl))).
Defined.

Lemma slash_schedule_inherits_action_witness :
  exists n h timer row,
    Num 1 = Num n
    /\ rows (registered (recordOf sampleHost (Instant 1893456000000)
                           (Some "U12345678") (Some "fnord") (Some "some text")
                           (Some "someAction") (Some []) noOptions (Num 1))
               (Instant 1893456000000)
               (inserted (recordOf sampleHost (Instant 1893456000000)
                            (Some "U12345678") (Some "fnord")
                            (Some "some text") (Some "someAction") (Some [])
                            noOptions (Num 1)) emptyWorld)) !! n = Some row
    /\ Job.action row = Some "someAction"
    /\ jobs (registered (recordOf sampleHost (Instant 1893456000000)
                           (Some "U12345678") (Some "fnord") (Some "some text")
                           (Some "someAction") (Some []) noOptions (Num 1))
               (Instant 1893456000000)
               (inserted (recordOf sampleHost (Instant 1893456000000)
                            (Some "U12345678") (Some "fnord")
                            (Some "some text") (Some "someAction") (Some [])
                            noOptions (Num 1)) emptyWorld)) !! Num 1 = Some h
    /\ heap (registered (recordOf sampleHost (Instant 1893456000000)
                           (Some "U12345678") (Some "fnord") (Some "some text")
                           (Some "someAction") (Some []) noOptions (Num 1))
               (Instant 1893456000000)
               (inserted (recordOf sampleHost (Instant 1893456000000)
                            (Some "U12345678") (Some "fnord")
                            (Some "some text") (Some "someAction") (Some [])
                            noOptions (Num 1)) emptyWorld)) !! h = Some timer
    /\ persistedJob timer = row
    /\ forall utils,
         dispatch utils row
         = emitAction utils (Job.user row) (Job.slash row) (Some "someAction")
             (Job.args row)
             {| r_channel := Job.channel row;
                r_conversationWith := Job.conversationWith row;
                r_conversationAs := Job.conversationAs row |}.
Proof.
  exact (slash_schedule_inherits_action sampleHost actionRequest
           (Instant 1893456000000) None None (Some "some text") None None None
           (Num 1) _ emptyWorld eq_refl eq_refl eq_refl).
Defined.

Lemma sampleWorld_storeInv : storeInv sampleWorld.
Proof.
  intros n row. unfold sampleWorld. simpl. rewrite !lookup_insert.
  destruct (decide (1%Z = n)) as [<-|]; [by intros [= <-]|].
  destruct (decide (2%Z = n)) as [<-|]; [by intros [= <-]|].
  by rewrite lookup_empty.
Qed.

Lemma sampleHost_accepts c : cronAccepts sampleHost c = true.
Proof. reflexivity. Qed.

Lemma pending_rows_stay_registered_witness :
  pendingInv (session sampleHost sampleCalls
                (snd (initPlugin sampleHost (restart sampleWorld))))
  /\ pendingOrRefused refusingHost
       (session refusingHost sampleCalls
          (snd (initPlugin refusingHost (restart sampleWorld)))).
Proof.
  split.
  - exact (proj1 (proj2 (proj2
             (pending_rows_stay_registered sampleHost sampleCalls
                (byUser "U12345678") None sampleWorld sampleWorld_storeInv))
             sampleHost_accepts)).
  - exact (proj1 (pending_rows_stay_registered refusingHost sampleCalls
                    (byUser "U12345678") None sampleWorld
                    sampleWorld_storeInv)).
Defined.

Section MoreEdges.

Variable host : Host.

(** X19. [options] is not optional for [scheduleTask]: called without
    it (as the helper of [getHelpers] is when the caller stops after
    [slash] or [text]) it throws a TypeError before anything is inserted
    or registered.  The method of the class [Slash] always supplies an
    object, so with a defined [this.user] or a truthy [user] it can only
    fail on the validation or on the library. *)
Theorem scheduleTask_needs_options cronTime user slash text action args this
    w :
  scheduleTask host cronTime user slash text action args None w
  = (Throw (TypeError "Cannot read property 'channel' of undefined"), w)
  /\ (truthy user = true \/ is_Some (this_user this) ->
      forall e w',
        Slash_scheduleTask host this cronTime user slash text action args None
          w = (Throw e, w') ->
        (e = ValidationError "schema" /\ w' = w)
        \/ (e = CronError "invalid cron time" /\ jobs w' = jobs w
            /\ heap w' = heap w)).
Proof.
  split; [reflexivity|]. intros Huser e w'. unfold Slash_scheduleTask.
  destruct (if truthy user then Some user else this_user this) as [user'|]
    eqn:Hu.
  - rewrite scheduleTask_cases. cbv zeta.
    destruct (Job.jsonSchema _); [|intros [= <- <-]; by left].
    destruct (cronAccepts host cronTime); [discriminate|].
    intros [= <- <-]. by right.
  - destruct (truthy user); [discriminate|]. destruct Huser as [?|[? ?]];
      congruence.
Qed.




Lemma fireTimes_stopped utils h k w :
  (forall t, heap w !! h = Some t -> running t = false) ->
  fireTimes utils h k w = (Ok tt, w).
Proof.
  intros Hstop. induction k as [|k IH]; [done|].
  simpl. unfold bind.
  assert (Hf : fire utils h w = (Ok tt, w)).
  { unfold fire. run. destruct (heap w !! h) as [t|] eqn:Hh; [|done].
    by rewrite (Hstop t eq_refl). }
  by rewrite Hf.
Qed.

(** X21. A timer that has been stopped is inert.  After a cancellation
    that found the timer, and after the one firing of a one-shot timer,
    further ticks of that timer, however many and whatever the dispatch
    would do, leave the world as it is: no dispatch, no patch. *)
Theorem stopped_timer_is_inert utils utils' i message h k w :
  (jobs w !! i = Some h ->
   fireTimes utils h k (snd (cancelCronJob i message w))
   = (Ok tt, snd (cancelCronJob i message w)))
  /\ (forall job, heap w !! h = Some job -> runOnce job = true ->
        fireTimes utils' h k (snd (fire utils h w))
        = (Ok tt, snd (fire utils h w))).
Proof.
  split.
  - intros Hj. apply fireTimes_stopped. intros t.
    rewrite (cancelCronJob_present _ _ h) by done. simpl.
    rewrite lookup_alter_eq. destruct (heap w !! h); [|done].
    by intros [= <-].
  - intros job Hh Honce. apply fireTimes_stopped. intros t.
    unfold fire, stop. run. rewrite Hh.
    destruct (running job) eqn:Hrun.
    + rewrite Honce. simpl.
      rewrite (proj1 (onTick_timers utils (persistedJob job) job _)). simpl.
      rewrite lookup_alter_eq, Hh. by intros [= <-].
    + simpl. rewrite Hh. by intros [= <-].
Qed.

End MoreEdges.

Lemma scheduleTask_needs_options_witness :
  scheduleTask sampleHost (Pattern "0 */10 * * * *") (Some "U1") None None
    None None None emptyWorld
  = (Throw (TypeError "Cannot read property 'channel' of undefined"),
     emptyWorld)
  /\ ((ValidationError "schema" = ValidationError "schema"
       /\ emptyWorld = emptyWorld)
      \/ (ValidationError "schema" = CronError "invalid cron time"
          /\ jobs emptyWorld = jobs emptyWorld
          /\ heap emptyWorld = heap emptyWorld)).
Proof.
  destruct (scheduleTask_needs_options sampleHost (Pattern "0 */10 * * * *")
              (Some "U1") None None None None actionRequest emptyWorld)
    as [H1 H2].
  split; [exact H1|].
  exact (H2 (or_introl eq_refl) (ValidationError "schema") emptyWorld eq_refl).
Defined.


Lemma stopped_timer_is_inert_witness :
  fireTimes utilsDown 1 3 (snd (cancelCronJob (Num 2) "stop" sampleWorld))
  = (Ok tt, snd (cancelCronJob (Num 2) "stop" sampleWorld)).
Proof.
  refine (proj1 (stopped_timer_is_inert utilsDown utilsOk (Num 2) "stop"
                   1%nat 3 sampleWorld) _).
  reflexivity.
Defined.

Lemma ephemeral_never_reaches_store_witness :
  queries (snd (fireTimes utilsDown (fresh (dom (heap sampleWorld))) 5
                  (snd (helpers_setCronJob sampleHost (Pattern "* * * * * *")
                          (Some "U12345678") (Some "ping") None None None None
                          None None sampleWorld))))
  = queries sampleWorld.
Proof.
  exact (proj2 (proj2 (proj2 (proj2 (proj2
    (ephemeral_never_reaches_store sampleHost (Pattern "* * * * * *")
       (Some "U12345678") (Some "ping") None None None None None None
       utilsDown 5 sampleWorld)))))).
Defined.

(** * Recovery and recurring jobs, over the whole plugin *)

Section RecoveredJobs.

Variable host : Host.
Variable utils : Utils.

(** C2. [initPlugin] re-arms every row whose completion flag is unset
    (and whose recovered time the library accepts) and no row whose flag
    is set.  The timer it registers under the row's id carries the row and
    the time the specification gives for the row's [cron] text, with [now]
    a reading of the clock taken during recovery: a valid instant strictly
    before [now] becomes the next reading plus 1000 ms, any other valid
    instant is kept unchanged, a text that is no valid date is passed on
    unchanged as a pattern. *)
Theorem recovery_classifies_time n row cron w :
  rows w !! n = Some row ->
  Job.done row = None ->
  Job.cron row = Some cron ->
  (forall k, cronAccepts host (recoveredAt host w k cron) = true) ->
  (exists h k timer,
     (reads w <= k)%nat
     /\ jobs (snd (initPlugin host w)) !! Num n = Some h
     /\ heap w !! h = None
     /\ heap (snd (initPlugin host w)) !! h = Some timer
     /\ persistedJob timer = rowAt n row
     /\ running timer = true
     /\ cronTime timer
        = spec_recoverTime (moment_parse host cron) (clock w k)
            (clock w (S k)) cron
     /\ (forall t, moment_parse host cron = Some t -> (t < clock w k)%Z ->
           cronTime timer = Instant (clock w (S k) + 1000)
           /\ runOnce timer = true)
     /\ (forall t, moment_parse host cron = Some t -> (clock w k <= t)%Z ->
           cronTime timer = Instant t /\ runOnce timer = true)
     /\ (moment_parse host cron = None ->
           cronTime timer = Pattern cron /\ runOnce timer = false))
  /\ fst (recoverCronTime host cron w)
     = Ok (spec_recoverTime (moment_parse host cron) (clock w (reads w))
             (clock w (S (reads w))) cron)
  /\ (forall m row', rows w !! m = Some row' -> Job.done row' <> None ->
        jobs (snd (initPlugin host w)) !! Num m = jobs w !! Num m)
  /\ rows (snd (initPlugin host w)) = rows w.
Proof.
  intros Hrow Hdone Hcron Hacc. split; [|split; [|split]].
  - destruct (initPlugin_registers_row host n row cron w Hrow Hdone Hcron Hacc)
      as (h & k & Hk & Hj & Hn & Hh).
    exists h, k, (timerOf (recoveredAt host w k cron) (rowAt n row)).
    unfold recoveredAt, spec_recoverTime. simpl.
    repeat split; try done; rewrite H; try done;
      case_decide; done || lia.
  - apply recoverCronTime_spec.
  - intros m row' Hrow' Hdone'. by apply (initPlugin_skips_done host m row').
  - apply initPlugin_rows.
Qed.


End RecoveredJobs.

Lemma recovery_classifies_time_witness :
  exists h k timer,
    jobs (snd (initPlugin sampleHost (restart sampleWorld))) !! Num 1 = Some h
    /\ heap (snd (initPlugin sampleHost (restart sampleWorld))) !! h
       = Some timer
    /\ cronTime timer
       = spec_recoverTime (Some 1893456000000%Z) (sampleClock k)
           (sampleClock (S k)) "2030-01-01T00:00:00.000Z".
Proof.
  destruct (proj1 (recovery_classifies_time sampleHost 1%Z job1
                     "2030-01-01T00:00:00.000Z" (restart sampleWorld)
                     eq_refl eq_refl eq_refl (fun k => eq_refl)))
    as (h & k & timer & _ & Hj & _ & Hh & _ & _ & Ht & _).
  exists h, k, timer. split; [exact Hj|]. split; [exact Hh|exact Ht].
Defined.

